(** * WeblogChallenge: sessionizing a web log per client

    A shallow embedding of the core of [code/PaytmLabs_challenge.py]:
    the timeline builder [getPageDurations], the sessionizer [getSessions],
    the window sweep [getSessionsURLHits] with its element-wise reduction,
    the percentage table [getSessionWindowStats], the heuristic
    [getOptimalSessionWindow] and the per-client engagement record.

    Conventions of the embedding.
    - A Python [datetime] is the integer number of microseconds it denotes
      (its resolution), so the difference of two of them is an exact [Z].
    - A Python float is the rational number [Q] it denotes, and comparisons
      between an int and a float are the comparisons of the numbers, as in
      Python. The gap [td.total_seconds() / 60.0] is rounded as its two
      divisions round it, each to the nearest binary64 number, ties to even
      ([round_double]); for the differences of two [datetime]s no result is
      subnormal or infinite. The sums of durations and the divisions of the
      percentages and averages are kept exact.
    - A Python exception is a value [Raise e] of the [result] type.
    - The Spark broadcast variables are explicit arguments or constants, and
      the plotting calls, which return nothing the code uses, are left out. *)

From Stdlib Require Import ZArith QArith Qround Qpower Sorted Lia Lqa.
From Stdlib Require Floats.SpecFloat.
From stdpp Require Import gmap strings list sorting.

Close Scope Q_scope.
Open Scope Z_scope.

(** ** Python exceptions and results *)

Inductive exn : Set :=
| IndexError
| KeyError
| ZeroDivisionError
| ValueError.

Inductive result (A : Type) : Type :=
| Ok (a : A)
| Raise (e : exn).

Arguments Ok {A} a.
Arguments Raise {A} e.

Definition bind {A B} (c : result A) (k : A → result B) : result B :=
  match c with
  | Ok a => k a
  | Raise e => Raise e
  end.

Notation "'do' x <- c ; k" := (bind c (fun x => k))
  (at level 10, x pattern, c at level 100, k at level 200).

(** A loop body that may raise, run over the elements of a list. *)
Fixpoint foldM {A S} (body : S → A → result S) (l : list A) (s : S) : result S :=
  match l with
  | [] => Ok s
  | a :: l' => do s' <- body s a; foldM body l' s'
  end.

(** The same for a comprehension [[f x for x in l]]. *)
Fixpoint mapM {A B} (f : A → result B) (l : list A) : result (list B) :=
  match l with
  | [] => Ok []
  | a :: l' => do b <- f a; do bs <- mapM f l'; Ok (b :: bs)
  end.

(** ** Python sequences *)

(** The position a subscript [i] denotes in a sequence of length [n]:
    a negative subscript counts from the end. *)
Definition py_index (n : nat) (i : Z) : option nat :=
  if (0 <=? i) && (i <? Z.of_nat n) then Some (Z.to_nat i)
  else if (i <? 0) && (- Z.of_nat n <=? i) then Some (Z.to_nat (Z.of_nat n + i))
  else None.

(** [l[i]] *)
Definition py_getitem {A} (l : list A) (i : Z) : result A :=
  match py_index (length l) i with
  | Some k => match l !! k with Some a => Ok a | None => Raise IndexError end
  | None => Raise IndexError
  end.

(** [l[i] += d] on a list of integers *)
Definition py_iadd_item (l : list Z) (i : Z) (d : Z) : result (list Z) :=
  match py_index (length l) i with
  | Some k => match l !! k with
              | Some a => Ok (<[k := a + d]> l)
              | None => Raise IndexError
              end
  | None => Raise IndexError
  end.

(** [range(a, b)] *)
Definition py_range (a b : Z) : list Z :=
  map (fun k => a + Z.of_nat k) (seq 0 (Z.to_nat (b - a))).

(** [l[:-1]] and [l[1:]] *)
Definition py_but_last {A} (l : list A) : list A := take (length l - 1)%nat l.
Definition py_from_1 {A} (l : list A) : list A := drop 1 l.

(** [len(set(l))] for a list of strings *)
Definition py_len_set (l : list string) : nat :=
  size (list_to_set l : gset string).

(** [sum(l)] for a sequence of integers *)
Definition py_sum (l : list Z) : Z := fold_left Z.add l 0.

(** ** Numbers *)

(** [x < y] on rationals, as a boolean *)
Definition Qltb (x y : Q) : bool :=
  Qnum x * Z.pos (Qden y) <? Qnum y * Z.pos (Qden x).

(** The integer nearest to [q], the even one of the two when [q] is half
    way between them. *)
Definition round_half_even (q : Q) : Z :=
  let f := Qfloor q in
  match Qcompare (q - inject_Z f) (1 # 2) with
  | Lt => f
  | Gt => f + 1
  | Eq => if Z.even f then f else f + 1
  end.

(** The exponent [e] of the binary64 numbers around a positive [q]: the one
    with [2^52 <= q / 2^e < 2^53]. *)
Definition double_exponent (q : Q) : Z :=
  let e0 := Z.log2 (Qnum q) - Z.log2 (Z.pos (Qden q)) - 52 in
  if Qltb (q / Qpower 2 e0) (Qpower 2 52) then e0 - 1 else e0.

(** The binary64 number nearest to a positive [q], ties to even: a mantissa
    of 53 bits times a power of 2. *)
Definition round_double_pos (q : Q) : Q :=
  let e := double_exponent q in
  Qred (inject_Z (round_half_even (q / Qpower 2 e)) * Qpower 2 e).

(** The result of a float operation whose exact result is [q]. *)
Definition round_double (q : Q) : Q :=
  match Qcompare q 0 with
  | Eq => 0%Q
  | Gt => round_double_pos q
  | Lt => Qopp (round_double_pos (Qopp q))
  end.

(** [td.total_seconds() / 60.0] for a difference [td] in microseconds:
    [total_seconds()] is the true division of [td] by [10**6], and the
    result is divided by the float 60. *)
Definition total_minutes (td : Z) : Q :=
  round_double (round_double (td # 1000000) / 60).

(** ** The data model *)

Definition timestamp : Set := Z.

(** One page visit [[dt, url]], as [getLines] builds it. *)
Definition visit : Set := timestamp * string.

(** An element of the timestamp list of a timeline: [getPageDurations]
    stores the first timestamp as it is and every later one inside a list. *)
Inductive ts_cell : Set :=
| TsBare (t : timestamp)
| TsList (l : list timestamp).

(** The value [[lurls, lts, ldurs]] of a client's line after
    [getPageDurations], in the order of its three positions. *)
Record timeline : Set := Timeline {
  lurls : list string;
  lts : list ts_cell;
  ldurs : list Q
}.

(** The value [[lsess_durs, lsess_urls, lsess_ts]] of one session. *)
Record session : Set := Session {
  sess_durs : list Q;
  sess_urls : list string;
  sess_ts : list ts_cell
}.

(** ** getPageDurations *)

Definition getPageDurations_body (acc : timeline) (ij : visit * visit) : timeline :=
  let '(i, j) := ij in
  let td := j.1 - i.1 in
  {| ldurs := ldurs acc ++ [total_minutes td];
     lurls := lurls acc ++ [j.2];
     lts := lts acc ++ [TsList [j.1]] |}.

Definition getPageDurations (lin : string * list visit) : result (string * timeline) :=
  let cid := lin.1 in
  let dat := lin.2 in
  do first <- py_getitem dat 0;
  let init := {| ldurs := [0%Q]; lts := [TsBare first.1]; lurls := [first.2] |} in
  Ok (cid, fold_left getPageDurations_body (zip (py_but_last dat) (py_from_1 dat)) init).

(** ** getSessions *)

(** The loop state: the sessions closed so far and the three lists of the
    session being built. *)
Definition sess_state : Set := list (string * session) * session.

Definition getSessions_body (W : Z) (cid : string) (st : sess_state)
    (row : string * (ts_cell * Q)) : sess_state :=
  let '(lsessions, cur) := st in
  let '(url, (ts, dur)) := row in
  if Qltb dur (inject_Z W) then
    (lsessions,
     {| sess_durs := sess_durs cur ++ [dur];
        sess_urls := sess_urls cur ++ [url];
        sess_ts := sess_ts cur ++ [ts] |})
  else
    (lsessions ++ [(cid, cur)],
     {| sess_durs := [0%Q]; sess_urls := [url]; sess_ts := [ts] |}).

(** [W] is the value of the broadcast variable [SESSION_WINDOW_BC]. *)
Definition getSessions (W : Z) (lin : string * timeline) : list (string * session) :=
  let cid := lin.1 in
  let dat := lin.2 in
  let rows := zip (lurls dat) (zip (lts dat) (ldurs dat)) in
  let '(lsessions, cur) :=
    fold_left (getSessions_body W cid) rows ([], Session [] [] []) in
  lsessions ++ [(cid, cur)].

(** ** getSessionsURLHits *)

(** The max window size to test when the optimal session window size is
    calculated heuristically. *)
Definition SESSION_WINDOW_MAX : Z := 40.

(** The inner loop over [zip(dat[0], dat[2])]: the state is
    [(lsession_hits, lsess_urls)]. *)
Definition url_hits_body (period : Z) (st : list nat * list string)
    (row : string * Q) : list nat * list string :=
  let '(lsession_hits, lsess_urls) := st in
  let '(url, dur) := row in
  if Qltb dur (inject_Z period) then (lsession_hits, lsess_urls ++ [url])
  else (lsession_hits ++ [py_len_set lsess_urls], [url]).

Definition session_hits (period : Z) (dat : timeline) : list nat :=
  let '(lsession_hits, lsess_urls) :=
    fold_left (url_hits_body period) (zip (lurls dat) (ldurs dat)) ([], []) in
  lsession_hits ++ [py_len_set lsess_urls].

(** The loop [for spages in lsession_hits] over the 7-entry array. *)
Definition page_hits_body (lpage_hits : list Z) (spages : nat) : result (list Z) :=
  if (spages <=? 5)%nat then py_iadd_item lpage_hits (Z.of_nat spages - 1) 1
  else py_iadd_item lpage_hits 5 1.

Definition page_hits (lsession_hits : list nat) : result (list Z) :=
  do lpage_hits <- py_iadd_item (replicate 7 0) 6 (Z.of_nat (length lsession_hits));
  foldM page_hits_body lsession_hits lpage_hits.

Definition getSessionsURLHits_body (dat : timeline) (lall_sess_url_hits : list (list Z))
    (period : Z) : result (list (list Z)) :=
  do lpage_hits <- page_hits (session_hits period dat);
  Ok (lall_sess_url_hits ++ [lpage_hits]).

(** [MAX] is the value of the broadcast variable [SESSION_WINDOW_MAX_BC]. *)
Definition getSessionsURLHits_upto (MAX : Z) (lin : string * timeline)
    : result (string * list (list Z)) :=
  let cid := lin.1 in
  let dat := lin.2 in
  let lperiods := py_range 1 MAX in
  do lall_sess_url_hits <- foldM (getSessionsURLHits_body dat) lperiods [];
  Ok (cid, lall_sess_url_hits).

Definition getSessionsURLHits : string * timeline → result (string * list (list Z)) :=
  getSessionsURLHits_upto SESSION_WINDOW_MAX.

(** ** The reduction into the global histogram *)

(** [lambda a, b: [map(sum, zip(x, y)) for x, y in zip(a, b)]] *)
Definition hist_add (a b : list (list Z)) : list (list Z) :=
  map (fun xy : list Z * list Z =>
         map (fun p : Z * Z => py_sum [p.1; p.2]) (zip xy.1 xy.2))
      (zip a b).

(** [rdd.reduce(f)] over the elements of the RDD, taken in list order. *)
Definition rdd_reduce {A} (f : A → A → A) (l : list A) : result A :=
  match l with
  | [] => Raise ValueError
  | x :: l' => Ok (fold_left f l' x)
  end.

(** [d5.map(getSessionsURLHits).map(lambda (a, b): b).reduce(...)] *)
Definition lsess_window_stats (d5 : list (string * timeline)) : result (list (list Z)) :=
  do d6 <- mapM getSessionsURLHits d5;
  rdd_reduce hist_add (map snd d6).

(** ** getSessionWindowStats *)

(** [a / b] where one of the operands is a float *)
Definition py_div (a b : Q) : result Q :=
  if Qeq_bool b 0 then Raise ZeroDivisionError else Ok (a / b)%Q.

(** [(x[j] * 100.0) / x[6]] *)
Definition percentage (j : Z) (x : list Z) : result Q :=
  do xj <- py_getitem x j;
  do x6 <- py_getitem x 6;
  py_div (inject_Z xj * 100)%Q (inject_Z x6).

Definition getSessionWindowStats_body (lsess_window_stats : list (list Z))
    (lpg_sess_stats : gmap Z (list Q)) (j : Z) : result (gmap Z (list Q)) :=
  do col <- mapM (percentage j) lsess_window_stats;
  Ok (<[j := col]> lpg_sess_stats).

Definition getSessionWindowStats (lsess_window_stats : list (list Z))
    : result (gmap Z (list Q)) :=
  let page_nums := 6 in
  foldM (getSessionWindowStats_body lsess_window_stats) (py_range 0 page_nums) ∅.

(** ** getOptimalSessionWindow *)

(** [d[k]] on a dict *)
Definition dict_getitem {V} (d : gmap Z V) (k : Z) : result V :=
  match d !! k with
  | Some v => Ok v
  | None => Raise KeyError
  end.

(** The loop [for k in range(...)] with its [break]: the state is
    [(lind, num_ind)]; leaving the loop returns [lind]. *)
Fixpoint getOptimalSessionWindow_loop (lpg_sess_stats : gmap Z (list Q)) (pg_vw num_cohorts : Z)
    (ks : list Z) (lind : list Z) (num_ind : Z) : result (list Z) :=
  match ks with
  | [] => Ok lind
  | k :: ks' =>
      do s1 <- dict_getitem lpg_sess_stats pg_vw;
      do next <- py_getitem s1 (k + 1);
      do s2 <- dict_getitem lpg_sess_stats pg_vw;
      do here <- py_getitem s2 k;
      if Qltb here next then
        let num_ind := num_ind + 1 in
        let lind := lind ++ [k] in
        if num_cohorts <=? num_ind then Ok lind
        else getOptimalSessionWindow_loop lpg_sess_stats pg_vw num_cohorts ks' lind num_ind
      else getOptimalSessionWindow_loop lpg_sess_stats pg_vw num_cohorts ks' lind num_ind
  end.

(** The list [lind] returned; the second argument of the source is the name
    of the file its plot goes to. *)
Definition getOptimalSessionWindow (lpg_sess_stats : gmap Z (list Q)) : result (list Z) :=
  let pg_vw := 0 in
  let num_cohorts := 2 in
  do s <- dict_getitem lpg_sess_stats pg_vw;
  getOptimalSessionWindow_loop lpg_sess_stats pg_vw num_cohorts
    (py_range 0 (Z.of_nat (length s) - 1)) [] 0.

(** ** The engagement record of one client *)

(** [lambda (cid, dat): (cid, [dat[0][0], dat[1], dat[0][0]/dat[0][1],
    dat[1]/dat[0][1], dat[0][1]])], where [dat] is
    [([total page hits, number of sessions], total duration)] and the
    number of sessions is a sum of [1.0]. *)
Definition total_engagement (lin : string * ((Z * Q) * Q)) : result (string * list Q) :=
  let cid := lin.1 in
  let dat := lin.2 in
  do avg_hits <- py_div (inject_Z dat.1.1) dat.1.2;
  do avg_dur <- py_div dat.2 dat.1.2;
  Ok (cid, [inject_Z dat.1.1; dat.2; avg_hits; avg_dur; dat.1.2]).

(** ** Sorting a client's line *)

(** [sorted(dat, key=lambda x: x[0])] is the stable sort by timestamp: the
    visits in ascending order of timestamp, visits of one timestamp in the
    order they had. There is one such list; it is computed here by insertion,
    a visit going in front of the first visit that is not earlier. *)
Fixpoint sorted_insert (v : visit) (l : list visit) : list visit :=
  match l with
  | [] => [v]
  | w :: l' => if v.1 <=? w.1 then v :: w :: l' else w :: sorted_insert v l'
  end.

Definition py_sorted (dat : list visit) : list visit := foldr sorted_insert [] dat.

(** [d3.map(lambda (cid, dat): (cid, sorted(dat, key=lambda x: x[0])))
    .map(getPageDurations)] *)
Definition d5_cust_duration (d3 : list (string * list visit))
    : result (list (string * timeline)) :=
  mapM getPageDurations (map (fun lin => (lin.1, py_sorted lin.2)) d3).

(** ** The session window of the run *)

(** The lines of the main program from [session_window = args.session_period]
    to the broadcast of [session_window]; the calls that plot are left out. *)
Definition main_session_window (session_period : Z) (bCalculate_session_window : bool)
    (d5 : list (string * timeline)) : result Z :=
  let session_window := session_period in
  if bCalculate_session_window then
    do lsess_window_stats <- lsess_window_stats d5;
    do lpg_sess_stats <- getSessionWindowStats lsess_window_stats;
    do lind <- getOptimalSessionWindow lpg_sess_stats;
    if (0 <? length lind)%nat then
      do lind0 <- py_getitem lind 0;
      Ok (lind0 + 1)
    else Ok session_window
  else Ok session_window.

(** [d5.flatMap(getSessions)] *)
Definition d7_sessionized (W : Z) (d5 : list (string * timeline)) : list (string * session) :=
  flat_map (getSessions W) d5.

(** ** getSessionTime *)

(** [sum(l)] for a sequence of floats *)
Definition py_sum_float (l : list Q) : Q := fold_left Qplus l 0%Q.

(** The two Spark accumulators. *)
Record accumulators : Set := Accumulators {
  SUM_SESSION_TIME_ACC : Q;
  TOTAL_SESSIONS_ACC : Z
}.

(** The accumulators are threaded through the call. *)
Definition getSessionTime (acc : accumulators) (lin : string * session)
    : accumulators * (string * Q) :=
  let cid := lin.1 in
  let dat := lin.2 in
  let dur := py_sum_float (sess_durs dat) in
  ({| SUM_SESSION_TIME_ACC := (SUM_SESSION_TIME_ACC acc + dur)%Q;
      TOTAL_SESSIONS_ACC := TOTAL_SESSIONS_ACC acc + 1 |},
   (cid, dur)).

(** One evaluation of [rdd.map(f).collect()] for an [f] that updates the
    accumulators, over the elements in list order. *)
Fixpoint rdd_map_acc {A B} (f : accumulators → A → accumulators * B)
    (acc : accumulators) (l : list A) : accumulators * list B :=
  match l with
  | [] => (acc, [])
  | a :: l' =>
      let '(acc', b) := f acc a in
      let '(acc'', bs) := rdd_map_acc f acc' l' in
      (acc'', b :: bs)
  end.

(** [sum_session_time / (0.0 + total_num_sessions)] *)
Definition avg_session_time (acc : accumulators) : result Q :=
  py_div (SUM_SESSION_TIME_ACC acc) (0 + inject_Z (TOTAL_SESSIONS_ACC acc))%Q.

(** ** The engagement records of all clients *)

(** [rdd.reduceByKey(f)]: the values of one key are combined in list order;
    the result has one element per key and is held as a map. *)
Definition reduceByKey {V} (f : V → V → V) (rdd : list (string * V)) : gmap string V :=
  fold_left (fun m kv =>
               <[kv.1 := match m !! kv.1 with
                         | Some v => f v kv.2
                         | None => kv.2
                         end]> m)
            rdd ∅.

(** [a.join(b)] for two RDDs with one element per key *)
Definition rdd_join {V1 V2} (a : gmap string V1) (b : gmap string V2)
    : gmap string (V1 * V2) :=
  map_zip a b.

(** [d7.map(lambda (cid, dat): (cid, len(set(dat[1]))))] *)
Definition d8b_page_hits (d7 : list (string * session)) : list (string * nat) :=
  map (fun lin => (lin.1, py_len_set (sess_urls lin.2))) d7.

(** [lambda a, b: [a[0] + b[0], a[1] + b[1]]] *)
Definition page_sessions_add (a b : Z * Q) : Z * Q :=
  (a.1 + b.1, (a.2 + b.2)%Q).

(** [d8b.map(lambda (cid, page_hit): (cid, [page_hit, 1.0]))
    .reduceByKey(lambda a, b: [a[0] + b[0], a[1] + b[1]])] *)
Definition d12_total_page_sessions (d8b : list (string * nat)) : gmap string (Z * Q) :=
  reduceByKey page_sessions_add
    (map (fun lin => (lin.1, (Z.of_nat lin.2, 1%Q))) d8b).

(** [d8.reduceByKey(lambda a, b: a + b)]; the [sortBy] that follows orders
    the elements and leaves them as they are. *)
Definition d10_sorted_total_cust_session (d8 : list (string * Q)) : gmap string Q :=
  reduceByKey Qplus d8.

(** [d12.join(d10)], from the sessions of the run. *)
Definition d13_engagement (d7 : list (string * session)) : gmap string ((Z * Q) * Q) :=
  rdd_join (d12_total_page_sessions (d8b_page_hits d7))
    (d10_sorted_total_cust_session
       (rdd_map_acc getSessionTime (Accumulators 0 0) d7).2).

(** ** Specification-level notions *)

(** The invariant of a timeline: the three lists run in parallel and the
    first gap is 0. *)
Definition timeline_wf (tl : timeline) : Prop :=
  length (lurls tl) = length (lts tl) ∧
  length (lts tl) = length (ldurs tl) ∧
  head (ldurs tl) = Some 0%Q.

(** The events of a timeline and of a session: resource and timestamp cell,
    position by position. *)
Definition timeline_events (tl : timeline) : list (string * ts_cell) :=
  zip (lurls tl) (lts tl).

Definition session_events (s : string * session) : list (string * ts_cell) :=
  zip (sess_urls s.2) (sess_ts s.2).

(** The timestamps a cell holds. *)
Definition cell_stamps (c : ts_cell) : list timestamp :=
  match c with
  | TsBare t => [t]
  | TsList l => l
  end.

(** The three lists of a session have one entry per event. *)
Definition session_aligned (s : session) : Prop :=
  length (sess_urls s) = length (sess_ts s) ∧
  length (sess_ts s) = length (sess_durs s).

(** The gaps a session records: the first one, where there is one, is 0 and
    the later ones are below the window. *)
Definition gaps_ok (W : Z) (durs : list Q) : Prop :=
  (∀ d, head durs = Some d → d = 0%Q) ∧
  Forall (fun d => (d < inject_Z W)%Q) (tail durs).

(** The elapsed minutes between two consecutive visits. *)
Definition gap (ij : visit * visit) : Q := total_minutes (ij.2.1 - ij.1.1).

(** A 7-entry tally whose first six entries add up to the seventh. *)
Definition tally_ok (x : list Z) : Prop :=
  length x = 7%nat ∧ Some (py_sum (take 6 x)) = x !! 6%nat.

(** The selection as the specification words it: the indices [k] with
    [percentage[k+1] > percentage[k]], in increasing order, cut after the
    first [n]. *)
Definition uptick (s : list Q) (k : nat) : bool :=
  Qltb (nth k s 0%Q) (nth (k + 1) s 0%Q).

Definition uptick_indices (s : list Q) : list nat :=
  List.filter (uptick s) (seq 0 (length s - 1)).

Definition first_upticks (n : nat) (s : list Q) : list Z :=
  map Z.of_nat (take n (uptick_indices s)).

(** The rows [zip(dat[0], dat[1], dat[2])] that [getSessions] walks. *)
Definition timeline_rows (tl : timeline) : list (string * (ts_cell * Q)) :=
  zip (lurls tl) (zip (lts tl) (ldurs tl)).

(** What the loop state of [getSessions] becomes at the final
    [lsessions.append]. *)
Definition sess_close (cid : string) (st : sess_state) : list (string * session) :=
  st.1 ++ [(cid, st.2)].

(** The session a row opens in the [else] branch. *)
Definition session_of_row (row : string * (ts_cell * Q)) : session :=
  {| sess_durs := [0%Q]; sess_urls := [row.1]; sess_ts := [row.2.1] |}.

(** A session with at least one event. *)
Definition session_nonempty (s : session) : Prop :=
  sess_durs s ≠ [] ∧ sess_urls s ≠ [] ∧ sess_ts s ≠ [].

(** The number of sessions of a list of unique-resource counts that pass
    a test, and the tally the specification describes: sessions with exactly
    1, ..., 5 unique resources, with 6 or more, and all sessions. *)
Definition count_hits (P : nat → bool) (hits : list nat) : Z :=
  Z.of_nat (length (List.filter P hits)).

Definition bucket_counts (hits : list nat) : list Z :=
  [count_hits (Nat.eqb 1) hits; count_hits (Nat.eqb 2) hits; count_hits (Nat.eqb 3) hits;
   count_hits (Nat.eqb 4) hits; count_hits (Nat.eqb 5) hits; count_hits (Nat.leb 6) hits;
   Z.of_nat (length hits)].

(** The series of key [j] that the specification describes: per window,
    [100 * histogram[j] / histogram[6]]. *)
Definition percentages (j : nat) (stats : list (list Z)) : list Q :=
  map (fun x => (inject_Z (nth j x 0%Z) * 100 / inject_Z (nth 6 x 0%Z))%Q) stats.

(** The gap a session records for a gap of the timeline: the gap itself
    below the window, 0 from the window on. *)
Definition clip_gap (W : Z) (d : Q) : Q :=
  if Qltb d (inject_Z W) then d else 0%Q.

(** The gaps of a list that are not below the window. *)
Definition cuts (W : Z) (durs : list Q) : list Q :=
  List.filter (fun d => negb (Qltb d (inject_Z W))) durs.

(** A 7-entry tally that counts at least one session. *)
Definition tally_live (x : list Z) : Prop :=
  length x = 7%nat ∧ 1 ≤ nth 6 x 0.

(** The values an RDD of pairs holds for a key, in order. *)
Definition values_of {V} (k : string) (rdd : list (string * V)) : list V :=
  map snd (filter (fun kv : string * V => kv.1 = k) rdd).

(** The same gap computed with the IEEE 754 division of the Standard
    Library on binary64 numbers, for a [td] below [2^53] in size, which is a
    binary64 number itself. *)
Definition SF2Q (f : SpecFloat.spec_float) : Q :=
  match f with
  | SpecFloat.S754_finite s m e =>
      (inject_Z (if s then Z.neg m else Z.pos m) * Qpower 2 e)%Q
  | _ => 0%Q
  end.

Definition ieee_of_Z (z : Z) : SpecFloat.spec_float :=
  SpecFloat.binary_normalize 53 1024 z 0 false.

Definition ieee_total_minutes (td : Z) : Q :=
  SF2Q (SpecFloat.SFdiv 53 1024
          (SpecFloat.SFdiv 53 1024 (ieee_of_Z td) (ieee_of_Z 1000000))
          (ieee_of_Z 60)).

(** * Properties *)

(** ** Python sequences and numbers *)

Lemma Qltb_lt (x y : Q) : Qltb x y = true ↔ (x < y)%Q.
Proof. unfold Qltb, Qlt. apply Z.ltb_lt. Qed.

Lemma Qltb_ge (x y : Q) : Qltb x y = false ↔ (y <= x)%Q.
Proof. unfold Qltb, Qle. rewrite Z.ltb_ge. reflexivity. Qed.

Lemma py_index_nat (n k : nat) : (k < n)%nat → py_index n (Z.of_nat k) = Some k.
Proof.
  intros Hk. unfold py_index.
  replace (0 <=? Z.of_nat k) with true by (symmetry; apply Z.leb_le; lia).
  replace (Z.of_nat k <? Z.of_nat n) with true by (symmetry; apply Z.ltb_lt; lia).
  simpl. by rewrite Nat2Z.id.
Qed.

Lemma py_getitem_nat {A} (l : list A) (k : nat) (a : A) :
  l !! k = Some a → py_getitem l (Z.of_nat k) = Ok a.
Proof.
  intros Hl. unfold py_getitem.
  rewrite py_index_nat; [by rewrite Hl | by eapply lookup_lt_Some].
Qed.

Lemma py_range_nat (n : Z) : py_range 0 n = map Z.of_nat (seq 0 (Z.to_nat n)).
Proof. unfold py_range. rewrite Z.sub_0_r. by apply map_ext. Qed.

Lemma py_range_length (a b : Z) : length (py_range a b) = Z.to_nat (b - a).
Proof. unfold py_range. by rewrite length_map, length_seq. Qed.

(** ** Rounding to binary64 *)

Lemma round_half_even_near (x : Q) :
  (x - (1 # 2) <= inject_Z (round_half_even x) <= x + (1 # 2))%Q.
Proof.
  unfold round_half_even.
  pose proof (Qfloor_le x) as Hlo. pose proof (Qlt_floor x) as Hhi.
  rewrite inject_Z_plus in Hhi. change (inject_Z 1) with 1%Q in Hhi.
  destruct (Qcompare_spec (x - inject_Z (Qfloor x)) (1 # 2)) as [He|Hl|Hg].
  - destruct (Z.even (Qfloor x)); rewrite ?inject_Z_plus; change (inject_Z 1) with 1%Q; lra.
  - lra.
  - rewrite inject_Z_plus. change (inject_Z 1) with 1%Q. lra.
Qed.

Lemma Qpower2_pos (e : Z) : (0 < 2 ^ e)%Q.
Proof. by apply Qpower_0_lt. Qed.

Lemma Qpower2_Z (k : Z) : 0 ≤ k → (2 ^ k == inject_Z (2 ^ k))%Q.
Proof. intros Hk. by rewrite Zpower_Qpower. Qed.

Lemma double_exponent_low (q : Q) :
  (0 < q)%Q → (2 ^ 51 * 2 ^ (Z.log2 (Qnum q) - Z.log2 (Z.pos (Qden q)) - 52) <= q)%Q.
Proof.
  intros Hq. destruct q as [n d]. cbn [Qnum Qden].
  assert (0 < n) as Hn by (unfold Qlt in Hq; simpl in Hq; lia).
  pose proof (Z.log2_spec n Hn) as [Ha _].
  pose proof (Z.log2_spec (Z.pos d) (Pos2Z.is_pos d)) as [_ Hb].
  pose proof (Z.log2_nonneg n) as Ha0. pose proof (Z.log2_nonneg (Z.pos d)) as Hb0.
  set (a := Z.log2 n) in *. set (b := Z.log2 (Z.pos d)) in *.
  rewrite <- Qpower_plus by done.
  replace (51 + (a - b - 52)) with (a + - (Z.succ b)) by lia.
  rewrite Qpower_plus by done. rewrite Qpower_opp.
  rewrite (Qpower2_Z a), (Qpower2_Z (Z.succ b)) by lia.
  assert (0 < 2 ^ Z.succ b) as Hpb by (apply Z.pow_pos_nonneg; lia).
  destruct (2 ^ Z.succ b) as [|B|B] eqn:HB; try lia.
  rewrite <- (Qmake_Qdiv (2 ^ a) B). unfold Qle. cbn [Qnum Qden]. nia.
Qed.


(** The exponent chosen puts the scaled number between [2^52] and [2^53]. *)
Lemma double_exponent_spec (q : Q) :
  (0 < q)%Q → (2 ^ 52 <= q / 2 ^ double_exponent q)%Q.
Proof.
  intros Hq. unfold double_exponent.
  set (e0 := Z.log2 (Qnum q) - Z.log2 (Z.pos (Qden q)) - 52).
  destruct (Qltb (q / 2 ^ e0) (2 ^ 52)) eqn:Hlt.
  - pose proof (double_exponent_low q Hq) as Hlow. fold e0 in Hlow.
    apply Qle_shift_div_l; [apply Qpower2_pos|].
    replace (e0 - 1) with (e0 + -1) by lia. rewrite Qpower_plus by done.
    change (2 ^ (-1))%Q with (1 # 2)%Q.
    change (2 ^ 52)%Q with (2 * 2 ^ 51)%Q.
    pose proof (Qpower2_pos e0). nra.
  - by apply Qltb_ge in Hlt.
Qed.



(** Rounding a positive number moves it by at most [2^-53] of itself. *)
Lemma round_double_pos_near (q : Q) :
  (0 < q)%Q →
  (q * (1 - (1 # 9007199254740992)) <= round_double_pos q
   <= q * (1 + (1 # 9007199254740992)))%Q ∧ (0 < round_double_pos q)%Q.
Proof.
  intros Hq. unfold round_double_pos. rewrite Qred_correct.
  pose proof (double_exponent_spec q Hq) as Hx.
  pose proof (Qpower2_pos (double_exponent q)) as HP.
  set (P := (2 ^ double_exponent q)%Q) in *.
  pose proof (round_half_even_near (q / P)) as [Hlo Hhi].
  set (m := inject_Z (round_half_even (q / P))) in *.
  assert (q / P * P == q)%Q as Hxp by (field; lra).
  set (x := (q / P)%Q) in *.
  change (2 ^ 52)%Q with 4503599627370496%Q in Hx.
  assert (0 <= (m - (x - (1 # 2))) * P)%Q as H1 by (apply Qmult_le_0_compat; lra).
  assert (0 <= (x + (1 # 2) - m) * P)%Q as H2 by (apply Qmult_le_0_compat; lra).
  assert (0 <= (x - 4503599627370496) * P)%Q as H3 by (apply Qmult_le_0_compat; lra).
  split; [split|]; nra.
Qed.

Lemma round_double_near (q : Q) :
  (0 <= q)%Q →
  (q * (1 - (1 # 9007199254740992)) <= round_double q
   <= q * (1 + (1 # 9007199254740992)))%Q ∧ (0 <= round_double q)%Q.
Proof.
  intros Hq. unfold round_double. destruct (Qcompare_spec q 0) as [He|Hl|Hg].
  - rewrite He. lra.
  - lra.
  - destruct (round_double_pos_near q Hg) as [[? ?] ?]. lra.
Qed.


(** The gap of [td] microseconds is within [2^-51] of [td / 60000000]
    minutes, relative to it, and is not negative. *)
Lemma total_minutes_near (td : Z) :
  0 ≤ td →
  ((td # 60000000) * (1 - (1 # 2251799813685248)) <= total_minutes td
   <= (td # 60000000) * (1 + (1 # 2251799813685248)))%Q ∧ (0 <= total_minutes td)%Q.
Proof.
  intros Htd. unfold total_minutes.
  assert (0 <= td # 1000000)%Q as HS by (unfold Qle; simpl; lia).
  destruct (round_double_near (td # 1000000) HS) as [[Hs1 Hs2] Hs0].
  set (s := round_double (td # 1000000)) in *.
  assert (0 <= s / 60)%Q as Hs60 by (apply Qle_shift_div_l; lra).
  destruct (round_double_near (s / 60) Hs60) as [[Hr1 Hr2] Hr0].
  set (r := round_double (s / 60)) in *.
  assert (td # 60000000 == (td # 1000000) / 60)%Q as HT.
  { rewrite (Qmake_Qdiv td 60000000), (Qmake_Qdiv td 1000000). field. }
  rewrite HT. set (S := (td # 1000000)%Q) in *.
  assert (s / 60 == s * (1 # 60))%Q as Hd by field. rewrite Hd in Hr1, Hr2.
  assert (S / 60 == S * (1 # 60))%Q as Hd' by field. rewrite Hd'.
  split; [split|]; lra.
Qed.


(** On these differences the gap is the one the IEEE 754 divisions of the
    Standard Library give. *)
Lemma total_minutes_ieee_samples :
  forallb (fun td => Qeq_bool (total_minutes td) (ieee_total_minutes td))
    [0; 1; 59; 60; 999999; 1000000; 1000001; 20000000; 60000000; 90000000;
     109000000; 121000000; 230000000; 1200000000; 86400000000; 123456789123;
     -1; -20000000; 9007199254740991] = true.
Proof. vm_compute. reflexivity. Qed.

(** ** getPageDurations *)

Lemma getPageDurations_fold (l : list (visit * visit)) (acc : timeline) :
  fold_left getPageDurations_body l acc =
  {| lurls := lurls acc ++ map (fun ij => ij.2.2) l;
     lts := lts acc ++ map (fun ij => TsList [ij.2.1]) l;
     ldurs := ldurs acc ++ map gap l |}.
Proof.
  revert acc. induction l as [|[i j] l IH]; intros acc; simpl.
  - rewrite !app_nil_r. by destruct acc.
  - rewrite IH. simpl. by rewrite <- !app_assoc.
Qed.

Lemma consecutive_cons {A} (e : A) (rest : list A) :
  zip (py_but_last (e :: rest)) (py_from_1 (e :: rest)) = zip (e :: rest) rest.
Proof.
  unfold py_but_last, py_from_1.
  replace (length (e :: rest) - 1)%nat with (length rest) by (simpl; lia).
  change (drop 1 (e :: rest)) with rest. apply zip_with_take_l.
Qed.

Lemma map_snd_consecutive {A B} (f : A → B) (l k : list A) :
  (length k ≤ length l)%nat → map (fun ij : A * A => f ij.2) (zip l k) = map f k.
Proof.
  revert l. induction k as [|b k IH]; intros [|a l] Hl; simpl in *; try lia.
  - done.
  - done.
  - f_equal. apply IH. lia.
Qed.

(** The timeline in closed form. *)
Lemma getPageDurations_cons (cid : string) (e : visit) (rest : list visit) :
  getPageDurations (cid, e :: rest) =
  Ok (cid, {| lurls := e.2 :: map snd rest;
              lts := TsBare e.1 :: map (fun v : visit => TsList [v.1]) rest;
              ldurs := 0%Q :: map gap (zip (e :: rest) rest) |}).
Proof.
  unfold getPageDurations. cbn [fst snd]. change (py_getitem (e :: rest) 0) with (Ok e).
  cbn [bind]. rewrite consecutive_cons, getPageDurations_fold. cbn [lurls lts ldurs app].
  do 2 f_equal. f_equal.
  - f_equal. apply (map_snd_consecutive snd). simpl. lia.
  - f_equal. apply (map_snd_consecutive (fun v : visit => TsList [v.1])). simpl. lia.
Qed.

Lemma getPageDurations_nil (cid : string) :
  getPageDurations (cid, []) = Raise IndexError.
Proof. reflexivity. Qed.

Lemma getPageDurations_wf (cid : string) (dat : list visit) (r : string * timeline) :
  getPageDurations (cid, dat) = Ok r → r.1 = cid ∧ timeline_wf r.2.
Proof.
  destruct dat as [|e rest]; [done|].
  rewrite getPageDurations_cons. intros [= <-]. split; [done|].
  unfold timeline_wf. cbn [snd lurls lts ldurs length head].
  rewrite !length_map. split_and!; [done| |done].
  destruct rest as [|b rest]; [done|]. cbn [length]. rewrite length_zip_with. cbn [length]. lia.
Qed.

Lemma gaps_nonneg (dat : list visit) :
  Sorted Z.le (map fst dat) →
  Forall (fun d => (0 <= d)%Q) (map gap (zip dat (tail dat))).
Proof.
  induction dat as [|a [|b dat] IH]; intros Hs; simpl; [done..|].
  simpl in Hs. inversion Hs as [|x l Hs' Hhd]; subst.
  constructor; [|by apply IH].
  inversion Hhd; subst. unfold gap. cbn [fst snd]. apply total_minutes_near. lia.
Qed.





(** ** getSessions: the loop *)

Lemma getSessions_eq (W : Z) (cid : string) (tl : timeline) :
  getSessions W (cid, tl) =
  sess_close cid (fold_left (getSessions_body W cid) (timeline_rows tl) ([], Session [] [] [])).
Proof.
  unfold getSessions, timeline_rows, sess_close. cbn [fst snd].
  by destruct (fold_left _ _ _).
Qed.

Lemma getSessions_body_lt (W : Z) (cid : string) (st : sess_state) row :
  Qltb row.2.2 (inject_Z W) = true →
  getSessions_body W cid st row =
  (st.1, {| sess_durs := sess_durs st.2 ++ [row.2.2];
            sess_urls := sess_urls st.2 ++ [row.1];
            sess_ts := sess_ts st.2 ++ [row.2.1] |}).
Proof. destruct st, row as [u [t d]]. simpl. by intros ->. Qed.

Lemma getSessions_body_ge (W : Z) (cid : string) (st : sess_state) row :
  Qltb row.2.2 (inject_Z W) = false →
  getSessions_body W cid st row = (sess_close cid st, session_of_row row).
Proof. destruct st, row as [u [t d]]. simpl. by intros ->. Qed.

(** A property of the sessions closed so far ([P]) and of the session being
    built ([C]) that every iteration keeps holds of the sessions returned,
    all of which carry the client's id. *)
Lemma getSessions_loop_inv (P C : session → Prop) (W : Z) (cid : string) :
  (∀ c, C c → P c) →
  (∀ c u t d, C c → (d < inject_Z W)%Q →
     C {| sess_durs := sess_durs c ++ [d]; sess_urls := sess_urls c ++ [u];
          sess_ts := sess_ts c ++ [t] |}) →
  (∀ row, C (session_of_row row)) →
  ∀ rows st, Forall (fun s => s.1 = cid ∧ P s.2) st.1 → C st.2 →
    Forall (fun s => s.1 = cid ∧ P s.2)
      (sess_close cid (fold_left (getSessions_body W cid) rows st)).
Proof.
  intros HCP Hext Hnew. induction rows as [|row rows IH]; intros st Hclosed Hcur.
  - unfold sess_close. simpl. apply Forall_app. split; [done|]. constructor; [|done].
    split; [done|]. by apply HCP.
  - simpl. destruct (Qltb row.2.2 (inject_Z W)) eqn:Hlt.
    + rewrite getSessions_body_lt by done. apply IH; [done|]. cbn [snd].
      apply Hext; [done|]. by apply Qltb_lt.
    + rewrite getSessions_body_ge by done. apply IH; cbn [fst snd]; [|done].
      unfold sess_close. apply Forall_app. split; [done|]. constructor; [|done].
      split; [done|]. by apply HCP.
Qed.

Lemma getSessions_loop_length (W : Z) (cid : string) rows st :
  (length (sess_close cid (fold_left (getSessions_body W cid) rows st))
   ≤ length (sess_close cid st) + length rows)%nat.
Proof.
  revert st. induction rows as [|row rows IH]; intros st; simpl; [lia|].
  etrans; [apply IH|].
  destruct (Qltb row.2.2 (inject_Z W)) eqn:Hlt.
  - rewrite getSessions_body_lt by done. unfold sess_close. cbn [fst snd].
    rewrite !length_app. simpl. lia.
  - rewrite getSessions_body_ge by done. unfold sess_close. cbn [fst snd].
    rewrite !length_app. simpl. lia.
Qed.

(** The events of the sessions are the events already there followed by
    those of the rows walked. *)
Lemma getSessions_loop_events (W : Z) (cid : string) rows st :
  length (sess_urls st.2) = length (sess_ts st.2) →
  concat (map session_events (sess_close cid (fold_left (getSessions_body W cid) rows st))) =
  concat (map session_events (sess_close cid st)) ++ map (fun row => (row.1, row.2.1)) rows.
Proof.
  revert st. induction rows as [|row rows IH]; intros st Hlen; simpl.
  - by rewrite app_nil_r.
  - destruct (Qltb row.2.2 (inject_Z W)) eqn:Hlt.
    + rewrite getSessions_body_lt by done. rewrite IH.
      * unfold sess_close. cbn [fst snd]. rewrite !map_app, !concat_app. simpl.
        rewrite !app_nil_r. unfold session_events at 2 4. cbn [fst snd sess_urls sess_ts].
        rewrite zip_with_app by done. simpl. by rewrite <- !app_assoc.
      * cbn [snd sess_urls sess_ts]. rewrite !length_app. simpl. lia.
    + rewrite getSessions_body_ge by done. rewrite IH by done.
      change (sess_close cid (sess_close cid st, session_of_row row))
        with (sess_close cid st ++ [(cid, session_of_row row)]).
      rewrite map_app, concat_app. simpl. by rewrite <- app_assoc.
Qed.

Lemma timeline_rows_events (tl : timeline) :
  length (lurls tl) = length (lts tl) → length (lts tl) = length (ldurs tl) →
  map (fun row : string * (ts_cell * Q) => (row.1, row.2.1)) (timeline_rows tl)
  = timeline_events tl.
Proof.
  unfold timeline_rows, timeline_events. destruct tl as [us ts ds]. simpl.
  revert ts ds. induction us as [|u us IH]; intros [|t ts] [|d ds] H1 H2; simpl in *; try done.
  f_equal. apply IH; lia.
Qed.

(** ** getSessions: every event once, in order *)

Lemma getSessions_aligned (W : Z) (cid : string) (tl : timeline) :
  Forall (fun s => s.1 = cid ∧ session_aligned s.2) (getSessions W (cid, tl)).
Proof.
  rewrite getSessions_eq.
  apply (getSessions_loop_inv session_aligned session_aligned); try done.
  intros c u t d [H1 H2] _. unfold session_aligned. simpl.
  rewrite !length_app. simpl. lia.
Qed.

Lemma getSessions_events (W : Z) (cid : string) (tl : timeline) :
  length (lurls tl) = length (lts tl) → length (lts tl) = length (ldurs tl) →
  concat (map session_events (getSessions W (cid, tl))) = timeline_events tl.
Proof.
  intros H1 H2. rewrite getSessions_eq, getSessions_loop_events by done.
  by rewrite timeline_rows_events.
Qed.

Lemma concat_session_events (ss : list (string * session)) :
  Forall (fun s => session_aligned s.2) ss →
  map fst (concat (map session_events ss)) = concat (map (fun s => sess_urls s.2) ss) ∧
  map snd (concat (map session_events ss)) = concat (map (fun s => sess_ts s.2) ss).
Proof.
  induction 1 as [|s ss [Hs _] _ [IH1 IH2]]; [done|]. simpl.
  rewrite !map_app, IH1, IH2. unfold session_events.
  split; f_equal; [apply fst_zip | apply snd_zip]; lia.
Qed.

Lemma getSessions_urls_ts (W : Z) (cid : string) (tl : timeline) :
  length (lurls tl) = length (lts tl) → length (lts tl) = length (ldurs tl) →
  concat (map (fun s => sess_urls s.2) (getSessions W (cid, tl))) = lurls tl ∧
  concat (map (fun s => sess_ts s.2) (getSessions W (cid, tl))) = lts tl.
Proof.
  intros H1 H2.
  destruct (concat_session_events (getSessions W (cid, tl))) as [Hu Ht].
  { eapply Forall_impl; [apply getSessions_aligned|]. by intros s [_ ?]. }
  rewrite <- Hu, <- Ht, getSessions_events by done. unfold timeline_events.
  split; [apply fst_zip | apply snd_zip]; lia.
Qed.

(** The events of the timeline that [getPageDurations] builds are the
    visits of the client's line, resource by resource and timestamp by
    timestamp. *)
Lemma getPageDurations_events (cid : string) (dat : list visit) (tl : timeline) :
  getPageDurations (cid, dat) = Ok (cid, tl) →
  lurls tl = map snd dat ∧ flat_map cell_stamps (lts tl) = map fst dat.
Proof.
  destruct dat as [|e rest]; [done|]. rewrite getPageDurations_cons. intros [= <-].
  cbn [lurls lts]. split; [done|]. simpl. f_equal.
  induction rest as [|v rest IH]; [done|]. simpl. by rewrite IH.
Qed.

(** C1. Whatever the window, the sessions [getSessions] returns for a
    timeline split its events: the event lists of the sessions, one after
    the other, are the event sequence of the timeline, each event once and in
    the original order; so are the resource lists and the timestamp lists,
    and every session carries the client's id. *)
Theorem getSessions_partition (W : Z) (cid : string) (tl : timeline) :
  length (lurls tl) = length (lts tl) → length (lts tl) = length (ldurs tl) →
  concat (map session_events (getSessions W (cid, tl))) = timeline_events tl ∧
  concat (map (fun s => sess_urls s.2) (getSessions W (cid, tl))) = lurls tl ∧
  concat (map (fun s => sess_ts s.2) (getSessions W (cid, tl))) = lts tl ∧
  Forall (fun s => s.1 = cid ∧ session_aligned s.2) (getSessions W (cid, tl)).
Proof.
  intros H1 H2. split_and!.
  - by apply getSessions_events.
  - by apply getSessions_urls_ts.
  - by apply getSessions_urls_ts.
  - apply getSessions_aligned.
Qed.

Lemma getSessions_partition_witness :
  concat (map session_events
    (getSessions 15 ("10.0.0.1"%string,
       Timeline ["/a"; "/b"; "/c"]%string [TsBare 0; TsList [300000000]; TsList [1500000000]]
                [0; 5; 20]%Q)))
  = [("/a"%string, TsBare 0); ("/b"%string, TsList [300000000]);
     ("/c"%string, TsList [1500000000])].
Proof.
  pose proof (getSessions_partition 15 "10.0.0.1"%string
    (Timeline ["/a"; "/b"; "/c"]%string [TsBare 0; TsList [300000000]; TsList [1500000000]]
              [0; 5; 20]%Q) eq_refl eq_refl) as [H _].
  exact H.
Defined.

(** ** getSessions: the gaps of a session *)

Lemma timeline_wf_rows (tl : timeline) :
  timeline_wf tl →
  ∃ u t rows, timeline_rows tl = (u, (t, 0%Q)) :: rows ∧
              length (lurls tl) = S (length rows).
Proof.
  destruct tl as [[|u us] [|t ts] [|d ds]]; intros (H1 & H2 & H3); simpl in *; try done.
  injection H3 as ->. exists u, t, (zip us (zip ts ds)). split; [done|].
  rewrite !length_zip_with. lia.
Qed.

Lemma gaps_ok_snoc (W : Z) (durs : list Q) (d : Q) :
  durs ≠ [] → gaps_ok W durs → (d < inject_Z W)%Q → gaps_ok W (durs ++ [d]).
Proof.
  destruct durs as [|x durs]; [done|]. intros _ [Hhd Htl] Hd. split; [done|].
  simpl in *. apply Forall_app. split; [done|]. by constructor.
Qed.

Lemma gaps_ok_new (W : Z) (row : string * (ts_cell * Q)) :
  gaps_ok W (sess_durs (session_of_row row)).
Proof. split; simpl; [by intros d [= <-] | constructor]. Qed.

Lemma getSessions_gaps (W : Z) (cid : string) (tl : timeline) :
  timeline_wf tl →
  Forall (fun s => s.1 = cid ∧ gaps_ok W (sess_durs s.2)) (getSessions W (cid, tl)).
Proof.
  intros (u & t & rows & Hrows & _)%timeline_wf_rows.
  rewrite getSessions_eq, Hrows. cbn [fold_left].
  assert (∀ st, Forall (fun s => s.1 = cid ∧ gaps_ok W (sess_durs s.2)) st.1 →
            sess_durs st.2 ≠ [] ∧ gaps_ok W (sess_durs st.2) →
            Forall (fun s => s.1 = cid ∧ gaps_ok W (sess_durs s.2))
              (sess_close cid (fold_left (getSessions_body W cid) rows st))) as Hinv.
  { intros st. apply (getSessions_loop_inv (fun c => gaps_ok W (sess_durs c))
           (fun c => sess_durs c ≠ [] ∧ gaps_ok W (sess_durs c))).
    - by intros c [_ ?].
    - intros c u' t' d [Hne Hok] Hd. cbn [sess_durs]. split.
      + by destruct (sess_durs c).
      + by apply gaps_ok_snoc.
    - intros row. split; [done|]. apply gaps_ok_new. }
  destruct (Qltb (u, (t, 0%Q)).2.2 (inject_Z W)) eqn:Hlt.
  - rewrite getSessions_body_lt by done. apply Hinv; cbn [fst snd sess_durs app].
    + constructor.
    + split; [done|]. apply (gaps_ok_new W (u, (t, 0%Q))).
  - rewrite getSessions_body_ge by done. apply Hinv; cbn [fst snd].
    + unfold sess_close. simpl. repeat constructor; simpl; by intros.
    + split; [done|]. apply gaps_ok_new.
Qed.

(** With a positive window every session starts with the gap 0 and holds
    at least one event, and there are at most as many sessions as events. *)
Lemma getSessions_pos_window (W : Z) (cid : string) (tl : timeline) :
  0 < W → timeline_wf tl →
  Forall (fun s => s.1 = cid ∧ head (sess_durs s.2) = Some 0%Q ∧ session_nonempty s.2)
    (getSessions W (cid, tl)) ∧
  (1 ≤ length (getSessions W (cid, tl)) ≤ length (lurls tl))%nat.
Proof.
  intros HW (u & t & rows & Hrows & Hlen)%timeline_wf_rows.
  rewrite getSessions_eq, Hrows. cbn [fold_left].
  assert (Qltb 0 (inject_Z W) = true) as Hlt.
  { apply Qltb_lt. unfold Qlt. simpl. lia. }
  rewrite getSessions_body_lt by done. cbn [fst snd sess_durs sess_urls sess_ts app].
  split.
  - apply (getSessions_loop_inv
             (fun c => head (sess_durs c) = Some 0%Q ∧ session_nonempty c)
             (fun c => head (sess_durs c) = Some 0%Q ∧ session_nonempty c)); try done.
    intros c u' t' d [Hhd (Hd & Hu & Ht)] _. unfold session_nonempty. simpl.
    destruct (sess_durs c), (sess_urls c), (sess_ts c); done.
  - split.
    + unfold sess_close. rewrite length_app. simpl. lia.
    + etrans; [apply getSessions_loop_length|]. simpl. lia.
Qed.

(** With a non-positive window and no negative gap, every row takes the
    [else] branch: the still empty first session is closed by the first row,
    and every row opens a session of its own. *)
Lemma getSessions_loop_nonpos (W : Z) (cid : string) rows st :
  W ≤ 0 → Forall (fun row : string * (ts_cell * Q) => (0 <= row.2.2)%Q) rows →
  sess_close cid (fold_left (getSessions_body W cid) rows st) =
  sess_close cid st ++ map (fun row => (cid, session_of_row row)) rows.
Proof.
  intros HW Hrows. revert st. induction Hrows as [|row rows Hrow _ IH]; intros st; simpl.
  - by rewrite app_nil_r.
  - rewrite getSessions_body_ge, IH.
    + unfold sess_close at 1. cbn [fst snd]. by rewrite <- app_assoc.
    + apply Qltb_ge. apply Qle_trans with 0%Q; [|exact Hrow]. unfold Qle. simpl. lia.
Qed.

Lemma getSessions_nonpos_window (W : Z) (cid : string) (tl : timeline) :
  W ≤ 0 → Forall (fun d => (0 <= d)%Q) (ldurs tl) →
  getSessions W (cid, tl) =
  (cid, Session [] [] []) :: map (fun row => (cid, session_of_row row)) (timeline_rows tl).
Proof.
  intros HW Hd. rewrite getSessions_eq, getSessions_loop_nonpos; [done..|].
  unfold timeline_rows. apply Forall_forall. intros [u [t d]] Hin.
  apply elem_of_zip_r, elem_of_zip_r in Hin. rewrite Forall_forall in Hd. by apply Hd.
Qed.

(** C2. With the window 0 the one-event line [[(0, "/a")]] of a client
    gives two sessions, one more than it has events, and the first of them
    holds no event: its three lists are empty. *)
Theorem getSessions_zero_window_single_event :
  ∃ tl, getPageDurations ("10.0.0.1"%string, [(0, "/a"%string)]) = Ok ("10.0.0.1"%string, tl) ∧
    getSessions 0 ("10.0.0.1"%string, tl) =
    [("10.0.0.1"%string, Session [] [] []);
     ("10.0.0.1"%string, Session [0%Q] ["/a"%string] [TsBare 0])].
Proof. eexists. split; reflexivity. Qed.

(** C3. With the window -1 the two-event line [[(0, "/a"); (60000000, "/b")]]
    gives three sessions: a session without events, then one single-event
    session per event. *)
Theorem getSessions_negative_window_two_events :
  ∃ tl, getPageDurations ("10.0.0.1"%string, [(0, "/a"%string); (60000000, "/b"%string)])
        = Ok ("10.0.0.1"%string, tl) ∧
    getSessions (-1) ("10.0.0.1"%string, tl) =
    [("10.0.0.1"%string, Session [] [] []);
     ("10.0.0.1"%string, Session [0%Q] ["/a"%string] [TsBare 0]);
     ("10.0.0.1"%string, Session [0%Q] ["/b"%string] [TsList [60000000]])].
Proof.
  eexists. split; [apply getPageDurations_cons|].
  rewrite getSessions_nonpos_window; [reflexivity|lia|].
  cbn [ldurs]. constructor; [apply Qle_refl|].
  apply (gaps_nonneg [(0, "/a"%string); (60000000, "/b"%string)]).
  repeat constructor. simpl. lia.
Qed.

(** C4. On the timeline of the two visits [(0, "/a")] and
    [(60000000, "/b")] of a client, with parallel lists and first gap 0, the
    windows 0 and -3 each give three sessions, and the first of them records
    no gap at all: it is not the case that every session records 0 as its
    first gap. *)
Theorem getSessions_leading_session_no_gap :
  ∃ tl, getPageDurations ("10.0.0.1"%string, [(0, "/a"%string); (60000000, "/b"%string)])
        = Ok ("10.0.0.1"%string, tl) ∧
    timeline_wf tl ∧
    length (getSessions 0 ("10.0.0.1"%string, tl)) = 3%nat ∧
    head (getSessions 0 ("10.0.0.1"%string, tl))
    = Some ("10.0.0.1"%string, Session [] [] []) ∧
    ¬ Forall (fun s => head (sess_durs s.2) = Some 0%Q)
        (getSessions 0 ("10.0.0.1"%string, tl)) ∧
    length (getSessions (-3) ("10.0.0.1"%string, tl)) = 3%nat ∧
    head (getSessions (-3) ("10.0.0.1"%string, tl))
    = Some ("10.0.0.1"%string, Session [] [] []) ∧
    ¬ Forall (fun s => head (sess_durs s.2) = Some 0%Q)
        (getSessions (-3) ("10.0.0.1"%string, tl)).
Proof.
  eexists. split; [apply getPageDurations_cons|].
  split; [repeat split|].
  assert (Forall (fun d => (0 <= d)%Q)
            (0%Q :: map gap (zip [(0, "/a"%string); (60000000, "/b"%string)]
                                 [(60000000, "/b"%string)]))) as Hd.
  { constructor; [apply Qle_refl|].
    apply (gaps_nonneg [(0, "/a"%string); (60000000, "/b"%string)]).
    repeat constructor. simpl. lia. }
  rewrite !getSessions_nonpos_window by (lia || exact Hd).
  split_and!; try reflexivity; intros H; inversion H as [|? ? Hhd _]; discriminate Hhd.
Qed.

(** ** getSessionsURLHits: the tally of one window *)

Lemma count_hits_cons (P : nat → bool) (h : nat) (hits : list nat) :
  count_hits P (h :: hits) = (if P h then 1 else 0) + count_hits P hits.
Proof. unfold count_hits. simpl. destruct (P h); simpl length; lia. Qed.

Lemma count_hits_nil (P : nat → bool) : count_hits P [] = 0.
Proof. reflexivity. Qed.

Local Ltac seven x :=
  let H := fresh in
  intros H; do 7 (destruct x as [|? x]; [discriminate H|]);
  destruct x; [clear H|discriminate H].

(** The loop over [lsession_hits] adds to the six buckets the number of
    sessions that fall into each and leaves the seventh entry alone. *)
Lemma page_hits_loop (hits : list nat) (a0 a1 a2 a3 a4 a5 a6 : Z) :
  Forall (fun h => 1 ≤ h)%nat hits →
  foldM page_hits_body hits [a0; a1; a2; a3; a4; a5; a6] =
  Ok [a0 + count_hits (Nat.eqb 1) hits; a1 + count_hits (Nat.eqb 2) hits;
      a2 + count_hits (Nat.eqb 3) hits; a3 + count_hits (Nat.eqb 4) hits;
      a4 + count_hits (Nat.eqb 5) hits; a5 + count_hits (Nat.leb 6) hits; a6].
Proof.
  intros Hhits. revert a0 a1 a2 a3 a4 a5 a6.
  induction Hhits as [|h hits Hh _ IH]; intros a0 a1 a2 a3 a4 a5 a6.
  - rewrite !count_hits_nil, !Z.add_0_r. reflexivity.
  - rewrite !count_hits_cons.
    set (c1 := count_hits (Nat.eqb 1) hits) in *.
    set (c2 := count_hits (Nat.eqb 2) hits) in *.
    set (c3 := count_hits (Nat.eqb 3) hits) in *.
    set (c4 := count_hits (Nat.eqb 4) hits) in *.
    set (c5 := count_hits (Nat.eqb 5) hits) in *.
    set (c6 := count_hits (Nat.leb 6) hits) in *.
    destruct h as [|[|[|[|[|[|h]]]]]]; [lia|..];
      cbn [Nat.eqb Nat.leb];
      (etrans; [apply IH|]); f_equal;
      repeat (apply (f_equal2 cons); [lia|]); reflexivity.
Qed.

Lemma page_hits_buckets (hits : list nat) :
  Forall (fun h => 1 ≤ h)%nat hits → page_hits hits = Ok (bucket_counts hits).
Proof.
  intros Hhits. unfold page_hits.
  change (py_iadd_item (replicate 7 0) 6 (Z.of_nat (length hits)))
    with (Ok [0; 0; 0; 0; 0; 0; 0 + Z.of_nat (length hits)]).
  cbn [bind]. by rewrite page_hits_loop.
Qed.

Lemma bucket_counts_sum (hits : list nat) :
  Forall (fun h => 1 ≤ h)%nat hits → tally_ok (bucket_counts hits).
Proof.
  intros Hhits. split; [done|]. unfold bucket_counts, py_sum. simpl. f_equal.
  induction Hhits as [|h hits Hh _ IH]; [done|].
  rewrite !count_hits_cons. simpl length.
  set (c1 := count_hits (Nat.eqb 1) hits) in *.
  set (c2 := count_hits (Nat.eqb 2) hits) in *.
  set (c3 := count_hits (Nat.eqb 3) hits) in *.
  set (c4 := count_hits (Nat.eqb 4) hits) in *.
  set (c5 := count_hits (Nat.eqb 5) hits) in *.
  set (c6 := count_hits (Nat.leb 6) hits) in *.
  destruct h as [|[|[|[|[|[|h]]]]]]; [lia|..]; cbn [Nat.eqb Nat.leb]; lia.
Qed.

(** The loop over [lsession_hits] never raises: the subscript [spages - 1]
    is between -1 and 4. *)
Lemma page_hits_body_total (x : list Z) (spages : nat) :
  length x = 7%nat → ∃ x', page_hits_body x spages = Ok x' ∧ length x' = 7%nat.
Proof.
  seven x. destruct spages as [|[|[|[|[|[|h]]]]]]; by eexists.
Qed.

Lemma page_hits_total (hits : list nat) :
  ∃ x, page_hits hits = Ok x ∧ length x = 7%nat.
Proof.
  unfold page_hits.
  change (py_iadd_item (replicate 7 0) 6 (Z.of_nat (length hits)))
    with (Ok [0; 0; 0; 0; 0; 0; 0 + Z.of_nat (length hits)]).
  cbn [bind].
  assert (length [0; 0; 0; 0; 0; 0; 0 + Z.of_nat (length hits)] = 7%nat) as Hlen by done.
  revert Hlen. generalize [0; 0; 0; 0; 0; 0; 0 + Z.of_nat (length hits)].
  induction hits as [|h hits IH]; intros x Hx; simpl.
  - by exists x.
  - destruct (page_hits_body_total x h Hx) as (x' & -> & Hx'). by apply IH.
Qed.

(** ** getSessionsURLHits: the sessions of one window *)

Lemma py_len_set_pos (l : list string) : l ≠ [] → (1 ≤ py_len_set l)%nat.
Proof.
  destruct l as [|x l]; [done|]. intros _. unfold py_len_set.
  assert (size (list_to_set (x :: l) : gset string) ≠ 0%nat); [|lia].
  apply size_non_empty_iff. intros Hempty.
  assert (x ∈ (list_to_set (x :: l) : gset string)) as Hx by set_solver.
  rewrite Hempty in Hx. set_solver.
Qed.

Lemma url_hits_loop_pos (period : Z) rows (st : list nat * list string) :
  Forall (fun h => 1 ≤ h)%nat st.1 → st.2 ≠ [] →
  let st' := fold_left (url_hits_body period) rows st in
  Forall (fun h => 1 ≤ h)%nat st'.1 ∧ st'.2 ≠ [].
Proof.
  revert st. induction rows as [|[u d] rows IH]; intros [hits urls] Hhits Hurls; simpl.
  - done.
  - apply IH; destruct (Qltb d (inject_Z period)); simpl in *; try done.
    + apply Forall_app. split; [done|]. constructor; [|done]. by apply py_len_set_pos.
    + by destruct urls.
Qed.

(** For a timeline and a window of at least 1, every session counted has
    at least one resource. *)
Lemma session_hits_pos (period : Z) (tl : timeline) :
  1 ≤ period → timeline_wf tl → Forall (fun h => 1 ≤ h)%nat (session_hits period tl).
Proof.
  intros Hp (H1 & H2 & H3). unfold session_hits.
  destruct tl as [[|u us] ts [|d ds]]; simpl in *; try done.
  { destruct ts; simpl in *; [done|lia]. }
  injection H3 as ->.
  assert (Qltb 0 (inject_Z period) = true) as ->.
  { apply Qltb_lt. unfold Qlt. simpl. lia. }
  pose proof (url_hits_loop_pos period (zip us ds) ([], [] ++ [u])) as Hloop.
  simpl in Hloop. destruct (fold_left _ _ _) as [hits urls].
  destruct Hloop as [Hhits Hurls]; [done..|]. simpl in *.
  apply Forall_app. split; [done|]. constructor; [|done]. by apply py_len_set_pos.
Qed.

(** ** getSessionsURLHits: one tally per window tested *)

Lemma getSessionsURLHits_loop (dat : timeline) (periods : list Z) (acc : list (list Z)) :
  ∃ l, foldM (getSessionsURLHits_body dat) periods acc = Ok (acc ++ l) ∧
       Forall2 (fun period x => page_hits (session_hits period dat) = Ok x) periods l.
Proof.
  revert acc. induction periods as [|p periods IH]; intros acc; simpl.
  - exists []. by rewrite app_nil_r.
  - unfold getSessionsURLHits_body at 1.
    destruct (page_hits_total (session_hits p dat)) as (x & Hx & _). rewrite Hx. cbn [bind].
    destruct (IH (acc ++ [x])) as (l & -> & Hl). exists (x :: l).
    rewrite <- app_assoc. split; [done|]. by constructor.
Qed.

Lemma getSessionsURLHits_upto_spec (MAX : Z) (lin : string * timeline) :
  ∃ l, getSessionsURLHits_upto MAX lin = Ok (lin.1, l) ∧
       Forall2 (fun period x => page_hits (session_hits period lin.2) = Ok x)
         (py_range 1 MAX) l.
Proof.
  unfold getSessionsURLHits_upto.
  destruct (getSessionsURLHits_loop lin.2 (py_range 1 MAX) []) as (l & -> & Hl).
  by exists l.
Qed.

Lemma py_range_bounds (a b k : Z) : k ∈ py_range a b → a ≤ k < b.
Proof.
  unfold py_range. intros (n & -> & Hn%elem_of_seq)%list_elem_of_fmap. lia.
Qed.

Lemma Forall2_impl_in {A B} (P R : A → B → Prop) (l : list A) (k : list B) :
  Forall2 P l k → (∀ x y, x ∈ l → P x y → R x y) → Forall2 R l k.
Proof.
  induction 1 as [|x y l k Hxy _ IH]; intros Himp; constructor.
  - apply Himp; [by left|done].
  - apply IH. intros x' y' Hin. apply Himp. by right.
Qed.

Lemma getSessionsURLHits_tallies (lin : string * timeline) :
  timeline_wf lin.2 →
  ∃ l, getSessionsURLHits lin = Ok (lin.1, l) ∧
       Forall2 (fun period x => x = bucket_counts (session_hits period lin.2))
         (py_range 1 SESSION_WINDOW_MAX) l ∧
       Forall tally_ok l.
Proof.
  intros Hwf. destruct (getSessionsURLHits_upto_spec SESSION_WINDOW_MAX lin) as (l & Hl & HF).
  exists l. split; [done|].
  assert (Forall2 (fun period x => x = bucket_counts (session_hits period lin.2))
            (py_range 1 SESSION_WINDOW_MAX) l) as HF'.
  { eapply Forall2_impl_in; [exact HF|]. intros p x Hp%py_range_bounds Hx.
    cbv beta in Hx.
    rewrite page_hits_buckets in Hx; [congruence|]. apply session_hits_pos; [lia|done]. }
  split; [done|].
  apply Forall_forall. intros x Hx.
  destruct (proj1 (list_elem_of_lookup _ _) Hx) as [i Hi].
  destruct (Forall2_lookup_r _ _ _ _ _ HF' Hi) as (p & Hp & ->).
  apply bucket_counts_sum, session_hits_pos; [|done].
  apply list_elem_of_lookup_2, py_range_bounds in Hp. lia.
Qed.

(** C5. For every client line [getSessionsURLHits] returns 39 tallies, the
    tally at position [i] being that of the window [i + 1]: the windows
    tested are 1 to 39, and [SESSION_WINDOW_MAX = 40] is not among them. *)
Theorem getSessionsURLHits_windows (lin : string * timeline) :
  ∃ l, getSessionsURLHits lin = Ok (lin.1, l) ∧
    length l = 39%nat ∧
    Z.of_nat (length l) = SESSION_WINDOW_MAX - 1 ∧
    ∀ i x, l !! i = Some x → page_hits (session_hits (1 + Z.of_nat i) lin.2) = Ok x.
Proof.
  destruct (getSessionsURLHits_upto_spec SESSION_WINDOW_MAX lin) as (l & Hl & HF).
  exists l. split; [done|].
  assert (length l = 39%nat) as Hlen.
  { by rewrite <- (Forall2_length _ _ _ HF), py_range_length. }
  split; [done|]. split; [by rewrite Hlen|].
  intros i x Hi. destruct (Forall2_lookup_r _ _ _ _ _ HF Hi) as (p & Hp & Hx).
  unfold py_range in Hp. rewrite list_lookup_fmap in Hp.
  destruct (seq 0 _ !! i) as [k|] eqn:Hk; [|done].
  apply lookup_seq in Hk as [-> _]. by injection Hp as <-.
Qed.

(** ** The reduction into the global histogram *)

Lemma tally_add_ok (x y : list Z) :
  tally_ok x → tally_ok y →
  tally_ok (map (fun p : Z * Z => py_sum [p.1; p.2]) (zip x y)).
Proof.
  intros [Hx Sx] [Hy Sy]. revert Sx Sy. revert Hx. seven x. revert Hy. seven y.
  unfold tally_ok, py_sum. simpl. intros [= Sx] [= Sy]. split; [done|]. f_equal. lia.
Qed.

Lemma hist_add_ok (a b : list (list Z)) :
  Forall tally_ok a → Forall tally_ok b → Forall tally_ok (hist_add a b).
Proof.
  intros Ha. revert b. unfold hist_add.
  induction Ha as [|x a Hx _ IH]; intros b Hb; [constructor|].
  destruct Hb as [|y b Hy Hb]; [constructor|]. simpl.
  constructor; [by apply tally_add_ok | by apply IH].
Qed.

Lemma hist_add_length (a b : list (list Z)) :
  length (hist_add a b) = (length a `min` length b)%nat.
Proof. unfold hist_add. by rewrite length_map, length_zip_with. Qed.

Lemma fold_hist_add_ok (l : list (list (list Z))) (x : list (list Z)) :
  Forall tally_ok x → Forall (Forall tally_ok) l →
  Forall tally_ok (fold_left hist_add l x).
Proof.
  intros Hx Hl. revert x Hx. induction Hl as [|y l Hy _ IH]; intros x Hx; simpl; [done|].
  apply IH. by apply hist_add_ok.
Qed.

Lemma mapM_getSessionsURLHits (d5 : list (string * timeline)) :
  Forall (fun lin => timeline_wf lin.2) d5 →
  ∃ d6, mapM getSessionsURLHits d5 = Ok d6 ∧ length d6 = length d5 ∧
        Forall (fun r => Forall tally_ok r.2) d6.
Proof.
  induction 1 as [|lin d5 Hlin _ (d6 & Hd6 & Hlen & Hok)]; simpl.
  - by exists [].
  - destruct (getSessionsURLHits_tallies lin Hlin) as (l & -> & _ & Hl). cbn [bind].
    rewrite Hd6. cbn [bind]. eexists. split; [done|]. split; [simpl; lia|].
    by constructor.
Qed.

Lemma mapM_getPageDurations (d4 : list (string * list visit)) :
  Forall (fun lin => lin.2 ≠ []) d4 →
  ∃ d5, mapM getPageDurations d4 = Ok d5 ∧ length d5 = length d4 ∧
        Forall (fun lin => timeline_wf lin.2) d5.
Proof.
  induction 1 as [|[cid dat] d4 Hdat _ (d5 & Hd5 & Hlen & Hwf)]; simpl.
  - by exists [].
  - destruct dat as [|e rest]; [done|]. rewrite getPageDurations_cons. cbn [bind].
    rewrite Hd5. cbn [bind]. eexists. split; [done|]. split; [simpl; lia|].
    constructor; [|done].
    by apply (getPageDurations_wf cid (e :: rest) _ (getPageDurations_cons _ _ _)).
Qed.

Lemma lsess_window_stats_ok (d5 : list (string * timeline)) :
  d5 ≠ [] → Forall (fun lin => timeline_wf lin.2) d5 →
  ∃ h, lsess_window_stats d5 = Ok h ∧ Forall tally_ok h.
Proof.
  intros Hne Hwf. unfold lsess_window_stats.
  destruct (mapM_getSessionsURLHits d5 Hwf) as (d6 & -> & Hlen & Hok). cbn [bind].
  destruct d6 as [|r d6]; [by destruct d5|]. simpl.
  inversion Hok as [|? ? Hr Hd6]; subst.
  eexists. split; [done|]. apply fold_hist_add_ok; [done|].
  apply Forall_fmap. eapply Forall_impl; [exact Hd6|]. done.
Qed.

(** C7. For a client's timeline every tally of [getSessionsURLHits] has
    seven entries of which the first six add up to the seventh: the tally of
    a window counts its sessions with exactly 1, ..., 5 and with 6 or more
    unique resources, and all of them. The element-wise sum of two lists of
    such tallies is again one, and so is the histogram the reduction over
    the timelines of the clients returns, whatever non-empty lines of visits
    the timelines are built from. *)
Theorem tally_sums :
  (∀ lin, timeline_wf lin.2 →
     ∃ l, getSessionsURLHits lin = Ok (lin.1, l) ∧
          Forall2 (fun period x => x = bucket_counts (session_hits period lin.2))
            (py_range 1 SESSION_WINDOW_MAX) l ∧
          Forall tally_ok l) ∧
  (∀ a b, Forall tally_ok a → Forall tally_ok b → Forall tally_ok (hist_add a b)) ∧
  (∀ d4 : list (string * list visit), d4 ≠ [] → Forall (fun lin => lin.2 ≠ []) d4 →
     ∃ d5 h, mapM getPageDurations d4 = Ok d5 ∧
             lsess_window_stats d5 = Ok h ∧ Forall tally_ok h).
Proof.
  split_and!.
  - apply getSessionsURLHits_tallies.
  - apply hist_add_ok.
  - intros d4 Hne Hdat.
    destruct (mapM_getPageDurations d4 Hdat) as (d5 & Hd5 & Hlen5 & Hwf).
    destruct (lsess_window_stats_ok d5) as (h & Hh & Hok); [by destruct d5, d4|done|].
    by exists d5, h.
Qed.

Lemma tally_sums_witness :
  ∃ l, getSessionsURLHits
         ("10.0.0.1"%string,
          Timeline ["/a"; "/b"; "/c"]%string
            [TsBare 0; TsList [300000000]; TsList [1500000000]] [0; 5; 20]%Q)
       = Ok ("10.0.0.1"%string, l) ∧ Forall tally_ok l.
Proof.
  destruct (proj1 tally_sums
    ("10.0.0.1"%string,
     Timeline ["/a"; "/b"; "/c"]%string
       [TsBare 0; TsList [300000000]; TsList [1500000000]] [0; 5; 20]%Q))
    as (l & Hl & _ & Hok).
  - repeat split.
  - exists l. split; [exact Hl | exact Hok].
Defined.

(** C10. For a client line of at least two visits the timestamp list of
    the timeline is of two shapes, the first timestamp as it is and every
    later one inside a one-element list, and the timestamp lists of the
    sessions, one after the other, are this very list. *)
Theorem getPageDurations_mixed_timestamps (W : Z) (cid : string) (dat : list visit) :
  (2 ≤ length dat)%nat →
  ∃ tl v0 rest, dat = v0 :: rest ∧ rest ≠ [] ∧
    getPageDurations (cid, dat) = Ok (cid, tl) ∧
    lts tl = TsBare v0.1 :: map (fun v : visit => TsList [v.1]) rest ∧
    concat (map (fun s => sess_ts s.2) (getSessions W (cid, tl))) = lts tl.
Proof.
  destruct dat as [|v0 [|v1 rest]]; simpl; [lia..|]. intros _.
  eexists _, v0, (v1 :: rest). split; [done|]. split; [done|].
  split; [apply getPageDurations_cons|]. split; [done|].
  destruct (getPageDurations_wf cid (v0 :: v1 :: rest) _ (getPageDurations_cons _ _ _))
    as (_ & H1 & H2 & _).
  by apply getSessions_urls_ts.
Qed.

Lemma getPageDurations_mixed_timestamps_witness :
  ∃ tl, getPageDurations ("10.0.0.1"%string, [(0, "/a"%string); (90000000, "/b"%string)])
        = Ok ("10.0.0.1"%string, tl) ∧
    lts tl = [TsBare 0; TsList [90000000]] ∧
    concat (map (fun s => sess_ts s.2) (getSessions 15 ("10.0.0.1"%string, tl)))
    = [TsBare 0; TsList [90000000]].
Proof.
  destruct (getPageDurations_mixed_timestamps 15 "10.0.0.1"%string
              [(0, "/a"%string); (90000000, "/b"%string)])
    as (tl & v0 & rest & Hdat & _ & Htl & Hlts & Hsess).
  - simpl. lia.
  - injection Hdat as <- <-. exists tl. rewrite Hsess. by split.
Defined.

(** ** getOptimalSessionWindow *)

Lemma elem_of_uptick_indices (s : list Q) (k : nat) :
  k ∈ uptick_indices s ↔
  (k + 1 < length s)%nat ∧ (nth k s 0 < nth (k + 1) s 0)%Q.
Proof.
  unfold uptick_indices. rewrite list_elem_of_In, filter_In, <- list_elem_of_In, elem_of_seq.
  unfold uptick. rewrite Qltb_lt. intuition lia.
Qed.

Lemma StronglySorted_seq (a n : nat) : StronglySorted lt (seq a n).
Proof.
  revert a. induction n as [|n IH]; intros a; simpl; constructor; [done|].
  apply Forall_forall. intros k Hk%elem_of_seq. lia.
Qed.

Lemma StronglySorted_filter_bool {A} (R : relation A) (f : A → bool) (l : list A) :
  StronglySorted R l → StronglySorted R (List.filter f l).
Proof.
  induction 1 as [|x l Hl IH Hx]; simpl; [constructor|].
  destruct (f x); [|done]. constructor; [done|].
  rewrite Forall_forall in Hx |- *. intros y Hy. apply Hx.
  apply list_elem_of_In in Hy. apply filter_In in Hy as [Hy _]. by apply list_elem_of_In.
Qed.

Lemma StronglySorted_take {A} (R : relation A) (n : nat) (l : list A) :
  StronglySorted R l → StronglySorted R (take n l).
Proof.
  intros Hl. revert n. induction Hl as [|x l Hl IH Hx]; intros [|n]; simpl; try constructor.
  - apply IH.
  - by apply Forall_take.
Qed.

Lemma first_upticks_sorted (n : nat) (s : list Q) :
  StronglySorted Z.lt (first_upticks n s).
Proof.
  unfold first_upticks, uptick_indices.
  apply (StronglySorted_fmap Z.of_nat lt Z.lt); [lia|].
  apply StronglySorted_take, StronglySorted_filter_bool, StronglySorted_seq.
Qed.

Lemma dict_getitem_Some {V} (d : gmap Z V) (k : Z) (v : V) :
  d !! k = Some v → dict_getitem d k = Ok v.
Proof. unfold dict_getitem. by intros ->. Qed.

(** The loop from a state with fewer than two indices recorded: it appends
    the upticks among the indices left, up to the two allowed. *)
Lemma getOptimalSessionWindow_loop_spec (d : gmap Z (list Q)) (s : list Q)
    (ks : list nat) (lind : list Z) (num_ind : Z) :
  d !! 0 = Some s → Forall (fun k => k + 1 < length s)%nat ks → 0 ≤ num_ind < 2 →
  getOptimalSessionWindow_loop d 0 2 (map Z.of_nat ks) lind num_ind =
  Ok (lind ++ map Z.of_nat (take (Z.to_nat (2 - num_ind)) (List.filter (uptick s) ks))).
Proof.
  intros Hd Hks. revert lind num_ind.
  induction Hks as [|k ks Hk _ IH]; intros lind num_ind Hnum.
  - simpl. by rewrite take_nil, app_nil_r.
  - cbn [map getOptimalSessionWindow_loop List.filter].
    rewrite (dict_getitem_Some _ _ _ Hd). cbn [bind].
    destruct (lookup_lt_is_Some_2 s (k + 1)) as [next Hnext]; [lia|].
    destruct (lookup_lt_is_Some_2 s k) as [here Hhere]; [lia|].
    replace (Z.of_nat k + 1) with (Z.of_nat (k + 1)) by lia.
    rewrite (py_getitem_nat _ _ _ Hnext), (py_getitem_nat _ _ _ Hhere). cbn [bind].
    unfold uptick at 1. rewrite (nth_lookup_Some _ _ _ _ Hnext), (nth_lookup_Some _ _ _ _ Hhere).
    destruct (Qltb here next).
    + assert (num_ind = 0 ∨ num_ind = 1) as [-> | ->] by lia.
      * change (2 <=? 0 + 1) with false. cbn iota. rewrite IH by lia.
        change (Z.to_nat (2 - (0 + 1))) with 1%nat. change (Z.to_nat (2 - 0)) with 2%nat.
        cbn [take map]. by rewrite <- app_assoc.
      * change (2 <=? 1 + 1) with true. cbn iota.
        change (Z.to_nat (2 - 1)) with 1%nat. cbn [take map]. by rewrite take_0.
    + by apply IH.
Qed.

Lemma getOptimalSessionWindow_spec (d : gmap Z (list Q)) (s : list Q) :
  d !! 0 = Some s → getOptimalSessionWindow d = Ok (first_upticks 2 s).
Proof.
  intros Hd. unfold getOptimalSessionWindow. rewrite (dict_getitem_Some _ _ _ Hd). cbn [bind].
  rewrite py_range_nat.
  replace (Z.to_nat (Z.of_nat (length s) - 1)) with (length s - 1)%nat by lia.
  rewrite (getOptimalSessionWindow_loop_spec d s) by
    (try done; try lia; apply Forall_forall; intros k Hk%elem_of_seq; lia).
  done.
Qed.

(** C6. [getOptimalSessionWindow] returns the indices [k] at which the
    series of key 0 goes up from [k] to [k + 1], in increasing order and cut
    after the first two; it returns the empty list when the series goes up
    nowhere, and [[2]] on the series 60, 55, 50, 52, 48. *)
Theorem getOptimalSessionWindow_upticks :
  (∀ (d : gmap Z (list Q)) (s : list Q), d !! 0 = Some s →
     getOptimalSessionWindow d = Ok (first_upticks 2 s) ∧
     StronglySorted Z.lt (first_upticks 2 s) ∧
     (∀ k, k ∈ uptick_indices s ↔
           (k + 1 < length s)%nat ∧ (nth k s 0 < nth (k + 1) s 0)%Q) ∧
     ((∀ k, (k + 1 < length s)%nat → ¬ (nth k s 0 < nth (k + 1) s 0)%Q) →
      getOptimalSessionWindow d = Ok [])) ∧
  getOptimalSessionWindow {[ 0 := [60; 55; 50; 52; 48]%Q ]} = Ok [2].
Proof.
  split.
  - intros d s Hd. split_and!.
    + by apply getOptimalSessionWindow_spec.
    + apply first_upticks_sorted.
    + apply elem_of_uptick_indices.
    + intros Hflat. rewrite (getOptimalSessionWindow_spec d s Hd). unfold first_upticks.
      replace (uptick_indices s) with (@nil nat); [done|]. symmetry.
      apply elem_of_nil_inv. intros k [Hk Hlt]%elem_of_uptick_indices. by apply (Hflat k).
  - vm_compute. reflexivity.
Qed.

Lemma getOptimalSessionWindow_upticks_witness :
  getOptimalSessionWindow {[ 0 := [60; 55; 50; 52; 48; 49; 47; 51]%Q ]} = Ok [2; 4].
Proof.
  destruct (proj1 getOptimalSessionWindow_upticks
              {[ 0 := [60; 55; 50; 52; 48; 49; 47; 51]%Q ]}
              [60; 55; 50; 52; 48; 49; 47; 51]%Q) as (H & _).
  - apply lookup_singleton_eq.
  - exact H.
Defined.

(** ** The divisions of getSessionWindowStats and of the engagement record *)

Lemma py_div_nonzero (a b : Q) : ¬ (b == 0)%Q → py_div a b = Ok (a / b)%Q.
Proof.
  intros Hb. unfold py_div. destruct (Qeq_bool b 0) eqn:E; [|done].
  by apply Qeq_bool_iff in E.
Qed.


Lemma inject_Z_eq_0 (z : Z) : (inject_Z z == 0)%Q ↔ z = 0.
Proof. unfold Qeq. simpl. lia. Qed.

(** The percentage the comprehension computes for a tally. *)
Lemma percentage_spec (j : nat) (x : list Z) :
  (j < 6)%nat → length x = 7%nat →
  percentage (Z.of_nat j) x =
  py_div (inject_Z (nth j x 0%Z) * 100)%Q (inject_Z (nth 6 x 0)).
Proof.
  intros Hj. seven x. do 6 (destruct j as [|j]; [reflexivity|]). lia.
Qed.

Lemma mapM_percentage_ok (j : nat) (stats : list (list Z)) :
  (j < 6)%nat → Forall (fun x => length x = 7%nat) stats →
  Forall (fun x => nth 6 x 0 ≠ 0) stats →
  mapM (percentage (Z.of_nat j)) stats = Ok (percentages j stats).
Proof.
  intros Hj Hlen. unfold percentages.
  induction Hlen as [|x stats Hx _ IH]; intros Hnz; [done|].
  inversion Hnz as [|? ? Hx6 Hnz']; subst. cbn [mapM map].
  rewrite percentage_spec, py_div_nonzero by (done || by rewrite inject_Z_eq_0).
  cbn [bind]. by rewrite IH.
Qed.


Lemma getSessionWindowStats_unfold (stats : list (list Z)) :
  getSessionWindowStats stats =
  foldM (getSessionWindowStats_body stats) (map Z.of_nat [0; 1; 2; 3; 4; 5]%nat) ∅.
Proof. reflexivity. Qed.

Lemma getSessionWindowStats_ok (stats : list (list Z)) :
  Forall (fun x => length x = 7%nat) stats → Forall (fun x => nth 6 x 0 ≠ 0) stats →
  getSessionWindowStats stats =
  Ok (<[5 := percentages 5 stats]> (<[4 := percentages 4 stats]>
     (<[3 := percentages 3 stats]> (<[2 := percentages 2 stats]>
     (<[1 := percentages 1 stats]> (<[0 := percentages 0 stats]> ∅)))))).
Proof.
  intros Hlen Hnz. rewrite getSessionWindowStats_unfold. cbn [map foldM].
  unfold getSessionWindowStats_body.
  rewrite !mapM_percentage_ok by (done || lia). reflexivity.
Qed.





(** * Further properties *)

(** ** getPageDurations on any line *)

(** X1. An empty line makes [getPageDurations] raise [IndexError]; any
    other line gives a timeline of parallel lists with first gap 0 that has
    one entry per visit, the resources of the visits in order and their
    timestamps in order. *)
Theorem getPageDurations_result (cid : string) (dat : list visit) :
  (dat = [] → getPageDurations (cid, dat) = Raise IndexError) ∧
  (dat ≠ [] →
   ∃ tl, getPageDurations (cid, dat) = Ok (cid, tl) ∧ timeline_wf tl ∧
         length (ldurs tl) = length dat ∧
         lurls tl = map snd dat ∧ flat_map cell_stamps (lts tl) = map fst dat).
Proof.
  split; [by intros ->|]. intros Hne. destruct dat as [|e rest]; [done|].
  eexists. split; [apply getPageDurations_cons|].
  pose proof (getPageDurations_cons cid e rest) as Heq.
  destruct (getPageDurations_wf _ _ _ Heq) as [_ Hwf].
  destruct (getPageDurations_events _ _ _ Heq) as [Hu Ht].
  split; [exact Hwf|]. split; [|by split].
  destruct Hwf as (H1 & H2 & _). cbn [snd] in H1, H2. rewrite <- H2, <- H1.
  cbn [lurls length]. by rewrite length_map.
Qed.

Lemma getPageDurations_result_witness :
  ∃ tl, getPageDurations ("10.0.0.1"%string, [(5, "/a"%string); (7, "/b"%string)])
        = Ok ("10.0.0.1"%string, tl) ∧ lurls tl = ["/a"; "/b"]%string.
Proof.
  destruct (proj2 (getPageDurations_result "10.0.0.1"%string
                     [(5, "/a"%string); (7, "/b"%string)]))
    as (tl & Htl & _ & _ & Hurls & _).
  - done.
  - exists tl. split; [exact Htl | exact Hurls].
Defined.

(** ** getSessions: how the window cuts a timeline *)

Lemma timeline_rows_proj (tl : timeline) :
  length (lurls tl) = length (lts tl) → length (lts tl) = length (ldurs tl) →
  map (fun row : string * (ts_cell * Q) => row.2.2) (timeline_rows tl) = ldurs tl ∧
  map (fun row : string * (ts_cell * Q) => row.1) (timeline_rows tl) = lurls tl ∧
  map (fun row : string * (ts_cell * Q) => row.2.1) (timeline_rows tl) = lts tl.
Proof.
  unfold timeline_rows. destruct tl as [us ts ds]. simpl.
  revert ts ds. induction us as [|u us IH]; intros [|t ts] [|d ds] H1 H2; simpl in *; try done.
  destruct (IH ts ds) as (-> & -> & ->); [lia..|done].
Qed.

Lemma getSessions_loop_count (W : Z) (cid : string) rows st :
  length (sess_close cid (fold_left (getSessions_body W cid) rows st)) =
  (length (sess_close cid st)
   + length (cuts W (map (fun row : string * (ts_cell * Q) => row.2.2) rows)))%nat.
Proof.
  revert st. induction rows as [|row rows IH]; intros st; simpl; [lia|].
  rewrite IH. destruct (Qltb row.2.2 (inject_Z W)) eqn:Hlt; simpl.
  - rewrite getSessions_body_lt by done. unfold sess_close. cbn [fst snd].
    rewrite !length_app. simpl. lia.
  - rewrite getSessions_body_ge by done. unfold sess_close. cbn [fst snd].
    rewrite !length_app. simpl. lia.
Qed.

Lemma getSessions_loop_durs (W : Z) (cid : string) rows st :
  concat (map (fun s => sess_durs s.2)
            (sess_close cid (fold_left (getSessions_body W cid) rows st))) =
  concat (map (fun s => sess_durs s.2) (sess_close cid st))
  ++ map (fun row : string * (ts_cell * Q) => clip_gap W row.2.2) rows.
Proof.
  revert st. induction rows as [|row rows IH]; intros st; simpl.
  - by rewrite app_nil_r.
  - rewrite IH. unfold clip_gap at 2. destruct (Qltb row.2.2 (inject_Z W)) eqn:Hlt.
    + rewrite getSessions_body_lt by done. unfold sess_close. cbn [fst snd].
      rewrite !map_app, !concat_app. simpl. rewrite !app_nil_r. by rewrite <- !app_assoc.
    + rewrite getSessions_body_ge by done.
      change (sess_close cid (sess_close cid st, session_of_row row))
        with (sess_close cid st ++ [(cid, session_of_row row)]).
      rewrite map_app, concat_app. simpl. by rewrite <- app_assoc.
Qed.

Lemma getSessions_loop_below (W : Z) (cid : string) rows st :
  Forall (fun row : string * (ts_cell * Q) => (row.2.2 < inject_Z W)%Q) rows →
  fold_left (getSessions_body W cid) rows st =
  (st.1, {| sess_durs := sess_durs st.2 ++ map (fun row => row.2.2) rows;
            sess_urls := sess_urls st.2 ++ map (fun row => row.1) rows;
            sess_ts := sess_ts st.2 ++ map (fun row => row.2.1) rows |}).
Proof.
  intros Hrows. revert st. induction Hrows as [|row rows Hrow _ IH]; intros st; simpl.
  - rewrite !app_nil_r. by destruct st as [? []].
  - rewrite getSessions_body_lt by by apply Qltb_lt. rewrite IH. cbn [fst snd sess_durs sess_urls sess_ts].
    by rewrite <- !app_assoc.
Qed.

Lemma cuts_mono (W W' : Z) (durs : list Q) :
  W ≤ W' → (length (cuts W' durs) ≤ length (cuts W durs))%nat.
Proof.
  intros HW. induction durs as [|d durs IH]; simpl; [lia|].
  destruct (Qltb d (inject_Z W)) eqn:Hlt; simpl.
  - replace (Qltb d (inject_Z W')) with true; [done|]. symmetry.
    apply Qltb_lt. apply Qltb_lt in Hlt. eapply Qlt_le_trans; [exact Hlt|].
    unfold Qle. simpl. lia.
  - destruct (Qltb d (inject_Z W')); simpl; lia.
Qed.

(** X2. The number of sessions is one more than the number of gaps of the
    timeline that are not below the window. *)
Theorem getSessions_count (W : Z) (cid : string) (tl : timeline) :
  length (lurls tl) = length (lts tl) → length (lts tl) = length (ldurs tl) →
  length (getSessions W (cid, tl)) = S (length (cuts W (ldurs tl))).
Proof.
  intros H1 H2. rewrite getSessions_eq, getSessions_loop_count.
  destruct (timeline_rows_proj tl H1 H2) as (-> & _). done.
Qed.

Lemma getSessions_count_witness :
  length (getSessions 15 ("10.0.0.1"%string,
            Timeline ["/a"; "/b"; "/c"]%string
              [TsBare 0; TsList [300000000]; TsList [1500000000]] [0; 5; 20]%Q)) = 2%nat.
Proof.
  rewrite (getSessions_count 15 "10.0.0.1"%string
             (Timeline ["/a"; "/b"; "/c"]%string
                [TsBare 0; TsList [300000000]; TsList [1500000000]] [0; 5; 20]%Q)
             eq_refl eq_refl).
  reflexivity.
Defined.

(** X3. A larger window never gives more sessions. *)
Theorem getSessions_count_mono (W W' : Z) (cid : string) (tl : timeline) :
  W ≤ W' →
  (length (getSessions W' (cid, tl)) ≤ length (getSessions W (cid, tl)))%nat.
Proof.
  intros HW. rewrite !getSessions_eq, !getSessions_loop_count.
  pose proof (cuts_mono W W'
    (map (fun row : string * (ts_cell * Q) => row.2.2) (timeline_rows tl)) HW).
  lia.
Qed.

Lemma getSessions_count_mono_witness :
  le (length (getSessions 15 ("10.0.0.1"%string,
                Timeline ["/a"; "/b"; "/c"]%string
                  [TsBare 0; TsList [300000000]; TsList [1500000000]] [0; 5; 20]%Q)))
     (length (getSessions 5 ("10.0.0.1"%string,
                Timeline ["/a"; "/b"; "/c"]%string
                  [TsBare 0; TsList [300000000]; TsList [1500000000]] [0; 5; 20]%Q))).
Proof.
  apply (getSessions_count_mono 5 15). lia.
Defined.

(** X4. With a positive window a timeline of [N] events gives between 1
    and [N] sessions, every one of them with at least one event and with 0
    as its first recorded gap. *)
Theorem getSessions_positive_window (W : Z) (cid : string) (tl : timeline) :
  0 < W → timeline_wf tl →
  (1 ≤ length (getSessions W (cid, tl)) ≤ length (lurls tl))%nat ∧
  Forall (fun s => session_nonempty s.2 ∧ head (sess_durs s.2) = Some 0%Q)
    (getSessions W (cid, tl)).
Proof.
  intros HW Hwf. destruct (getSessions_pos_window W cid tl HW Hwf) as [Hall Hlen].
  split; [done|]. eapply Forall_impl; [exact Hall|]. by intros s (_ & ? & ?).
Qed.

Lemma getSessions_positive_window_witness :
  Forall (fun s => session_nonempty s.2 ∧ head (sess_durs s.2) = Some 0%Q)
    (getSessions 1 ("10.0.0.1"%string,
       Timeline ["/a"; "/b"]%string [TsBare 0; TsList [300000000]] [0; 5]%Q)).
Proof.
  apply (getSessions_positive_window 1 "10.0.0.1"%string
           (Timeline ["/a"; "/b"]%string [TsBare 0; TsList [300000000]] [0; 5]%Q)).
  - lia.
  - repeat split.
Defined.

(** X5. With a window of 0 or less and no negative gap, the sessions are a
    session without events followed by one session per event, each holding
    that event alone with the gap 0. *)
Theorem getSessions_nonpositive_window (W : Z) (cid : string) (tl : timeline) :
  W ≤ 0 → Forall (fun d => (0 <= d)%Q) (ldurs tl) →
  length (lurls tl) = length (lts tl) → length (lts tl) = length (ldurs tl) →
  getSessions W (cid, tl) =
  (cid, Session [] [] [])
  :: map (fun e : string * ts_cell => (cid, Session [0%Q] [e.1] [e.2])) (timeline_events tl).
Proof.
  intros HW Hd H1 H2. rewrite getSessions_nonpos_window by done. f_equal.
  rewrite <- (timeline_rows_events tl H1 H2), map_map. done.
Qed.

Lemma getSessions_nonpositive_window_witness :
  getSessions 0 ("10.0.0.1"%string,
    Timeline ["/a"; "/b"]%string [TsBare 0; TsList [300000000]] [0; 5]%Q) =
  [("10.0.0.1"%string, Session [] [] []);
   ("10.0.0.1"%string, Session [0%Q] ["/a"%string] [TsBare 0]);
   ("10.0.0.1"%string, Session [0%Q] ["/b"%string] [TsList [300000000]])].
Proof.
  rewrite (getSessions_nonpositive_window 0 "10.0.0.1"%string
             (Timeline ["/a"; "/b"]%string [TsBare 0; TsList [300000000]] [0; 5]%Q)).
  - reflexivity.
  - lia.
  - repeat constructor; unfold Qle; simpl; lia.
  - reflexivity.
  - reflexivity.
Defined.

(** X6. When every gap of the timeline is below the window, there is one
    session and it holds the three lists of the timeline as they are. *)
Theorem getSessions_wide_window (W : Z) (cid : string) (tl : timeline) :
  length (lurls tl) = length (lts tl) → length (lts tl) = length (ldurs tl) →
  Forall (fun d => (d < inject_Z W)%Q) (ldurs tl) →
  getSessions W (cid, tl) = [(cid, Session (ldurs tl) (lurls tl) (lts tl))].
Proof.
  intros H1 H2 Hd. destruct (timeline_rows_proj tl H1 H2) as (Hds & Hus & Hts).
  rewrite getSessions_eq, getSessions_loop_below.
  - unfold sess_close. cbn [fst snd sess_durs sess_urls sess_ts app].
    by rewrite Hds, Hus, Hts.
  - rewrite <- Hds in Hd. by apply Forall_fmap in Hd.
Qed.

Lemma getSessions_wide_window_witness :
  getSessions 6 ("10.0.0.1"%string,
    Timeline ["/a"; "/b"]%string [TsBare 0; TsList [300000000]] [0; 5]%Q) =
  [("10.0.0.1"%string,
    Session [0; 5]%Q ["/a"; "/b"]%string [TsBare 0; TsList [300000000]])].
Proof.
  apply (getSessions_wide_window 6 "10.0.0.1"%string
           (Timeline ["/a"; "/b"]%string [TsBare 0; TsList [300000000]] [0; 5]%Q)).
  - reflexivity.
  - reflexivity.
  - repeat constructor.
Defined.

(** X7. The gaps the sessions record, one session after the other, are the
    gaps of the timeline with every gap that is not below the window
    replaced by 0. *)
Theorem getSessions_recorded_gaps (W : Z) (cid : string) (tl : timeline) :
  length (lurls tl) = length (lts tl) → length (lts tl) = length (ldurs tl) →
  concat (map (fun s => sess_durs s.2) (getSessions W (cid, tl))) =
  map (clip_gap W) (ldurs tl).
Proof.
  intros H1 H2. rewrite getSessions_eq, getSessions_loop_durs.
  destruct (timeline_rows_proj tl H1 H2) as (Hds & _). rewrite <- Hds.
  by rewrite map_map.
Qed.

Lemma getSessions_recorded_gaps_witness :
  concat (map (fun s => sess_durs s.2)
    (getSessions 15 ("10.0.0.1"%string,
       Timeline ["/a"; "/b"; "/c"]%string
         [TsBare 0; TsList [300000000]; TsList [1500000000]] [0; 5; 20]%Q)))
  = [0; 5; 0]%Q.
Proof.
  rewrite (getSessions_recorded_gaps 15 "10.0.0.1"%string
             (Timeline ["/a"; "/b"; "/c"]%string
                [TsBare 0; TsList [300000000]; TsList [1500000000]] [0; 5; 20]%Q)
             eq_refl eq_refl).
  reflexivity.
Defined.

(** X24. For a timeline (parallel lists, first gap 0) and any window, every
    session [getSessions] returns records 0 as its first gap, where it
    records one, and gaps below the window after it; with a positive window
    every session does record a first gap, and it is 0. *)
Theorem getSessions_session_gaps (W : Z) (cid : string) (tl : timeline) :
  timeline_wf tl →
  Forall (fun s => gaps_ok W (sess_durs s.2)) (getSessions W (cid, tl)) ∧
  (0 < W → Forall (fun s => head (sess_durs s.2) = Some 0%Q) (getSessions W (cid, tl))).
Proof.
  intros Hwf. split.
  - eapply Forall_impl; [by apply getSessions_gaps|]. by intros s [_ ?].
  - intros HW. destruct (getSessions_pos_window W cid tl HW Hwf) as [H _].
    eapply Forall_impl; [exact H|]. by intros s (_ & ? & _).
Qed.

Lemma getSessions_session_gaps_witness :
  Forall (fun s => gaps_ok 15 (sess_durs s.2))
    (getSessions 15 ("10.0.0.1"%string,
       Timeline ["/a"; "/b"; "/c"]%string [TsBare 0; TsList [300000000]; TsList [1500000000]]
                [0; 5; 20]%Q)) ∧
  Forall (fun s => head (sess_durs s.2) = Some 0%Q)
    (getSessions 15 ("10.0.0.1"%string,
       Timeline ["/a"; "/b"; "/c"]%string [TsBare 0; TsList [300000000]; TsList [1500000000]]
                [0; 5; 20]%Q)).
Proof.
  destruct (getSessions_session_gaps 15 "10.0.0.1"%string
    (Timeline ["/a"; "/b"; "/c"]%string [TsBare 0; TsList [300000000]; TsList [1500000000]]
              [0; 5; 20]%Q)) as [Hgaps Hfirst].
  - repeat split.
  - split; [exact Hgaps|]. apply Hfirst. lia.
Defined.

(** ** The sweep and the sessionizer *)

Lemma url_hits_simulation (W : Z) (cid : string) rows (st : sess_state) :
  fold_left (url_hits_body W)
    (map (fun row : string * (ts_cell * Q) => (row.1, row.2.2)) rows)
    (map (fun s => py_len_set (sess_urls s.2)) st.1, sess_urls st.2) =
  (map (fun s => py_len_set (sess_urls s.2))
     (fold_left (getSessions_body W cid) rows st).1,
   sess_urls (fold_left (getSessions_body W cid) rows st).2).
Proof.
  revert st. induction rows as [|row rows IH]; intros st; [done|].
  cbn [map fold_left]. unfold url_hits_body at 2. cbn [fst snd].
  destruct (Qltb row.2.2 (inject_Z W)) eqn:Hlt.
  - rewrite getSessions_body_lt by done. by rewrite <- IH.
  - rewrite getSessions_body_ge by done. rewrite <- IH. unfold sess_close.
    cbn [fst snd session_of_row sess_urls]. by rewrite map_app.
Qed.

Lemma timeline_rows_url_dur (tl : timeline) :
  length (lurls tl) = length (lts tl) → length (lts tl) = length (ldurs tl) →
  map (fun row : string * (ts_cell * Q) => (row.1, row.2.2)) (timeline_rows tl)
  = zip (lurls tl) (ldurs tl).
Proof.
  unfold timeline_rows. destruct tl as [us ts ds]. simpl.
  revert ts ds. induction us as [|u us IH]; intros [|t ts] [|d ds] H1 H2; simpl in *; try done.
  f_equal. apply IH; lia.
Qed.

Lemma session_hits_getSessions (W : Z) (cid : string) (tl : timeline) :
  length (lurls tl) = length (lts tl) → length (lts tl) = length (ldurs tl) →
  session_hits W tl = map snd (d8b_page_hits (getSessions W (cid, tl))).
Proof.
  intros H1 H2. unfold session_hits, d8b_page_hits.
  rewrite <- (timeline_rows_url_dur tl H1 H2), getSessions_eq.
  pose proof (url_hits_simulation W cid (timeline_rows tl) ([], Session [] [] [])) as Hsim.
  cbn [fst snd map sess_urls] in Hsim. rewrite Hsim.
  unfold sess_close. rewrite !map_app, !map_map. done.
Qed.

(** X8. For any window, the unique-resource counts the sweep computes for
    the sessions of a timeline are those of the sessions [getSessions]
    returns with that window, in the same order: the count the main program
    takes of each session, [len(set(dat[1]))]. *)
Theorem sweep_counts_sessions (W : Z) (cid : string) (tl : timeline) :
  length (lurls tl) = length (lts tl) → length (lts tl) = length (ldurs tl) →
  session_hits W tl = map snd (d8b_page_hits (getSessions W (cid, tl))) ∧
  length (session_hits W tl) = length (getSessions W (cid, tl)).
Proof.
  intros H1 H2. rewrite (session_hits_getSessions W cid tl H1 H2).
  split; [done|]. unfold d8b_page_hits. by rewrite !length_map.
Qed.

Lemma sweep_counts_sessions_witness :
  session_hits 15 (Timeline ["/a"; "/a"; "/c"]%string
                     [TsBare 0; TsList [300000000]; TsList [1500000000]] [0; 5; 20]%Q)
  = [1; 1]%nat.
Proof.
  rewrite (proj1 (sweep_counts_sessions 15 "10.0.0.1"%string
             (Timeline ["/a"; "/a"; "/c"]%string
                [TsBare 0; TsList [300000000]; TsList [1500000000]] [0; 5; 20]%Q)
             eq_refl eq_refl)).
  vm_compute. reflexivity.
Defined.

(** X9. For a timeline, the tally [getSessionsURLHits] returns at position
    [i] classifies the sessions [getSessions] returns with the window
    [i + 1]: it holds the numbers of those sessions with 1, ..., 5 and with 6
    or more unique resources, and in its seventh entry their number. *)
Theorem getSessionsURLHits_getSessions (cid : string) (tl : timeline) :
  timeline_wf tl →
  ∃ l, getSessionsURLHits (cid, tl) = Ok (cid, l) ∧
    ∀ i x, l !! i = Some x →
      x = bucket_counts (map snd (d8b_page_hits (getSessions (1 + Z.of_nat i) (cid, tl)))) ∧
      x !! 6%nat = Some (Z.of_nat (length (getSessions (1 + Z.of_nat i) (cid, tl)))).
Proof.
  intros Hwf. destruct (getSessionsURLHits_tallies (cid, tl) Hwf) as (l & Hl & HF & _).
  exists l. split; [exact Hl|]. intros i x Hi.
  destruct (Forall2_lookup_r _ _ _ _ _ HF Hi) as (p & Hp & ->).
  unfold py_range in Hp. rewrite list_lookup_fmap in Hp.
  destruct (seq 0 _ !! i) as [k|] eqn:Hk; [|done].
  apply lookup_seq in Hk as [-> _]. injection Hp as <-.
  destruct Hwf as (H1 & H2 & _). cbn [snd].
  rewrite (session_hits_getSessions _ cid tl H1 H2). split; [done|].
  cbn [bucket_counts lookup list_lookup]. unfold d8b_page_hits. by rewrite !length_map.
Qed.

Lemma getSessionsURLHits_getSessions_witness :
  ∃ l, getSessionsURLHits
         ("10.0.0.1"%string,
          Timeline ["/a"; "/b"]%string [TsBare 0; TsList [300000000]] [0; 5]%Q)
       = Ok ("10.0.0.1"%string, l).
Proof.
  destruct (getSessionsURLHits_getSessions "10.0.0.1"%string
              (Timeline ["/a"; "/b"]%string [TsBare 0; TsList [300000000]] [0; 5]%Q))
    as (l & Hl & _).
  - repeat split.
  - exists l. exact Hl.
Defined.

(** ** The tally of sessions without resources *)

Lemma page_hits_loop_any (hits : list nat) (a0 a1 a2 a3 a4 a5 a6 : Z) :
  foldM page_hits_body hits [a0; a1; a2; a3; a4; a5; a6] =
  Ok [a0 + count_hits (Nat.eqb 1) hits; a1 + count_hits (Nat.eqb 2) hits;
      a2 + count_hits (Nat.eqb 3) hits; a3 + count_hits (Nat.eqb 4) hits;
      a4 + count_hits (Nat.eqb 5) hits; a5 + count_hits (Nat.leb 6) hits;
      a6 + count_hits (Nat.eqb 0) hits].
Proof.
  revert a0 a1 a2 a3 a4 a5 a6.
  induction hits as [|h hits IH]; intros a0 a1 a2 a3 a4 a5 a6.
  - rewrite !count_hits_nil, !Z.add_0_r. reflexivity.
  - rewrite !count_hits_cons.
    set (c0 := count_hits (Nat.eqb 0) hits) in *.
    set (c1 := count_hits (Nat.eqb 1) hits) in *.
    set (c2 := count_hits (Nat.eqb 2) hits) in *.
    set (c3 := count_hits (Nat.eqb 3) hits) in *.
    set (c4 := count_hits (Nat.eqb 4) hits) in *.
    set (c5 := count_hits (Nat.eqb 5) hits) in *.
    set (c6 := count_hits (Nat.leb 6) hits) in *.
    destruct h as [|[|[|[|[|[|h]]]]]];
      cbn [Nat.eqb Nat.leb];
      (etrans; [apply IH|]); f_equal;
      repeat (apply (f_equal2 cons); [lia|]); reflexivity.
Qed.

Lemma count_hits_partition (hits : list nat) :
  count_hits (Nat.eqb 0) hits + count_hits (Nat.eqb 1) hits + count_hits (Nat.eqb 2) hits
  + count_hits (Nat.eqb 3) hits + count_hits (Nat.eqb 4) hits + count_hits (Nat.eqb 5) hits
  + count_hits (Nat.leb 6) hits = Z.of_nat (length hits).
Proof.
  induction hits as [|h hits IH]; [done|].
  rewrite !count_hits_cons. simpl length.
  set (c0 := count_hits (Nat.eqb 0) hits) in *.
  set (c1 := count_hits (Nat.eqb 1) hits) in *.
  set (c2 := count_hits (Nat.eqb 2) hits) in *.
  set (c3 := count_hits (Nat.eqb 3) hits) in *.
  set (c4 := count_hits (Nat.eqb 4) hits) in *.
  set (c5 := count_hits (Nat.eqb 5) hits) in *.
  set (c6 := count_hits (Nat.leb 6) hits) in *.
  destruct h as [|[|[|[|[|[|h]]]]]]; cbn [Nat.eqb Nat.leb]; lia.
Qed.

Lemma count_hits_zero (hits : list nat) :
  count_hits (Nat.eqb 0) hits = 0 ↔ Forall (fun h => 1 ≤ h)%nat hits.
Proof.
  induction hits as [|h hits IH]; [done|]. rewrite count_hits_cons, Forall_cons.
  assert (0 ≤ count_hits (Nat.eqb 0) hits) by (unfold count_hits; lia).
  set (c0 := count_hits (Nat.eqb 0) hits) in *.
  destruct h as [|h]; cbn [Nat.eqb].
  - split; [lia | intros [? _]; lia].
  - rewrite <- IH. split; [intros; split; lia | intros [_ ?]; lia].
Qed.

(** X10. Whatever the counts, the loop over [lsession_hits] raises nothing.
    A session counted with no resource at all goes, by the subscript [-1],
    to the seventh entry: the tally holds the numbers of sessions with
    1, ..., 5 and with 6 or more unique resources, and then the number of
    sessions plus the number of those without resources. Its first six
    entries add up to the seventh exactly when no session is without
    resources. *)
Theorem page_hits_any (hits : list nat) :
  page_hits hits =
  Ok [count_hits (Nat.eqb 1) hits; count_hits (Nat.eqb 2) hits;
      count_hits (Nat.eqb 3) hits; count_hits (Nat.eqb 4) hits;
      count_hits (Nat.eqb 5) hits; count_hits (Nat.leb 6) hits;
      Z.of_nat (length hits) + count_hits (Nat.eqb 0) hits] ∧
  ∀ x, page_hits hits = Ok x → (tally_ok x ↔ Forall (fun h => 1 ≤ h)%nat hits).
Proof.
  assert (page_hits hits =
    Ok [count_hits (Nat.eqb 1) hits; count_hits (Nat.eqb 2) hits;
        count_hits (Nat.eqb 3) hits; count_hits (Nat.eqb 4) hits;
        count_hits (Nat.eqb 5) hits; count_hits (Nat.leb 6) hits;
        Z.of_nat (length hits) + count_hits (Nat.eqb 0) hits]) as Heq.
  { unfold page_hits.
    change (py_iadd_item (replicate 7 0) 6 (Z.of_nat (length hits)))
      with (Ok [0; 0; 0; 0; 0; 0; 0 + Z.of_nat (length hits)]).
    cbn [bind]. by rewrite page_hits_loop_any. }
  split; [exact Heq|]. intros x Hx.
  assert (x = [count_hits (Nat.eqb 1) hits; count_hits (Nat.eqb 2) hits;
               count_hits (Nat.eqb 3) hits; count_hits (Nat.eqb 4) hits;
               count_hits (Nat.eqb 5) hits; count_hits (Nat.leb 6) hits;
               Z.of_nat (length hits) + count_hits (Nat.eqb 0) hits]) as ->
    by congruence.
  clear Hx.
  rewrite <- count_hits_zero. pose proof (count_hits_partition hits) as Hsum.
  clear Heq. revert Hsum.
  generalize (count_hits (Nat.eqb 0) hits) (count_hits (Nat.eqb 1) hits)
    (count_hits (Nat.eqb 2) hits) (count_hits (Nat.eqb 3) hits)
    (count_hits (Nat.eqb 4) hits) (count_hits (Nat.eqb 5) hits)
    (count_hits (Nat.leb 6) hits) (Z.of_nat (length hits)).
  intros c0 c1 c2 c3 c4 c5 c6 n Hsum. unfold tally_ok, py_sum. simpl.
  split.
  - intros [_ [= Hx]]. lia.
  - intros Hz. split; [done|]. f_equal. lia.
Qed.

Lemma page_hits_any_witness : tally_ok [1; 1; 0; 0; 0; 0; 2].
Proof.
  apply (proj2 (proj2 (page_hits_any [1%nat; 2%nat]) [1; 1; 0; 0; 0; 0; 2] eq_refl)).
  repeat constructor.
Defined.

(** ** The reduction does not depend on the order of the clients *)

Lemma tally_add_comm (x y : list Z) :
  map (fun p : Z * Z => py_sum [p.1; p.2]) (zip x y) =
  map (fun p : Z * Z => py_sum [p.1; p.2]) (zip y x).
Proof.
  revert y. induction x as [|a x IH]; intros [|b y]; simpl; try done.
  f_equal; [unfold py_sum; simpl; lia | apply IH].
Qed.

Lemma tally_add_assoc (x y z : list Z) :
  map (fun p : Z * Z => py_sum [p.1; p.2])
    (zip (map (fun p : Z * Z => py_sum [p.1; p.2]) (zip x y)) z) =
  map (fun p : Z * Z => py_sum [p.1; p.2])
    (zip x (map (fun p : Z * Z => py_sum [p.1; p.2]) (zip y z))).
Proof.
  revert y z. induction x as [|a x IH]; intros [|b y] [|c z]; simpl; try done.
  f_equal; [unfold py_sum; simpl; lia | apply IH].
Qed.

Lemma hist_add_comm (a b : list (list Z)) : hist_add a b = hist_add b a.
Proof.
  unfold hist_add. revert b. induction a as [|x a IH]; intros [|y b]; simpl; try done.
  f_equal; [apply tally_add_comm | apply IH].
Qed.

Lemma hist_add_assoc (a b c : list (list Z)) :
  hist_add (hist_add a b) c = hist_add a (hist_add b c).
Proof.
  unfold hist_add. revert b c.
  induction a as [|x a IH]; intros [|y b] [|z c]; simpl; try done.
  f_equal; [apply tally_add_assoc | apply IH].
Qed.

Section reduce.
Context {A : Type} (f : A → A → A).
Hypothesis f_comm : ∀ x y, f x y = f y x.
Hypothesis f_assoc : ∀ x y z, f (f x y) z = f x (f y z).

Lemma fold_left_reduce_assoc (l : list A) (x y : A) :
  fold_left f l (f x y) = f x (fold_left f l y).
Proof.
  revert y. induction l as [|z l IH]; intros y; simpl; [done|].
  by rewrite f_assoc, IH.
Qed.

Lemma rdd_reduce_cons (x : A) (l : list A) :
  rdd_reduce f (x :: l) =
  Ok (match rdd_reduce f l with Ok r => f x r | Raise _ => x end).
Proof.
  destruct l as [|y l]; simpl; [done|]. by rewrite fold_left_reduce_assoc.
Qed.

Lemma rdd_reduce_perm (l l' : list A) :
  l ≡ₚ l' → rdd_reduce f l = rdd_reduce f l'.
Proof.
  induction 1 as [|x l l' _ IH|x y l|l l' l'' _ IH1 _ IH2].
  - done.
  - by rewrite !rdd_reduce_cons, IH.
  - simpl. by rewrite (f_comm y x).
  - by rewrite IH1.
Qed.
End reduce.

Lemma mapM_total_perm {A B} (f : A → result B) (l l' : list A) :
  (∀ a, ∃ b, f a = Ok b) → l ≡ₚ l' →
  ∃ k k', mapM f l = Ok k ∧ mapM f l' = Ok k' ∧ k ≡ₚ k'.
Proof.
  intros Hf. induction 1 as [|x l l' _ IH|x y l|l l' l'' _ IH1 _ IH2].
  - by exists [], [].
  - destruct IH as (k & k' & Hk & Hk' & Hp). destruct (Hf x) as [b Hb].
    exists (b :: k), (b :: k'). simpl. rewrite Hb, Hk, Hk'. simpl.
    split; [done|]. split; [done|]. by constructor.
  - destruct (Hf x) as [b Hb]. destruct (Hf y) as [c Hc].
    assert (∃ k, mapM f l = Ok k) as [k Hk].
    { clear -Hf. induction l as [|a l [k Hk]]; [by exists []|].
      destruct (Hf a) as [b Hb]. exists (b :: k). simpl. by rewrite Hb, Hk. }
    exists (c :: b :: k), (b :: c :: k). simpl. rewrite Hb, Hc, Hk. simpl.
    split; [done|]. split; [done|]. constructor.
  - destruct IH1 as (k1 & k2 & H1 & H2 & Hp1). destruct IH2 as (k2' & k3 & H2' & H3 & Hp2).
    exists k1, k3. split; [done|]. split; [done|].
    rewrite H2 in H2'. injection H2' as <-. by etrans.
Qed.

(** X11. The element-wise sum of two lists of tallies is commutative and
    associative, whatever the lengths of the lists. *)
Theorem hist_add_comm_assoc :
  (∀ a b, hist_add a b = hist_add b a) ∧
  (∀ a b c, hist_add (hist_add a b) c = hist_add a (hist_add b c)).
Proof. split; [apply hist_add_comm | apply hist_add_assoc]. Qed.

(** X12. The global histogram does not depend on the order in which the
    clients are reduced: two lists with the same client lines, in any order,
    give the same result. *)
Theorem lsess_window_stats_perm (d5 d5' : list (string * timeline)) :
  d5 ≡ₚ d5' → lsess_window_stats d5 = lsess_window_stats d5'.
Proof.
  intros Hp. unfold lsess_window_stats.
  destruct (mapM_total_perm getSessionsURLHits d5 d5') as (k & k' & -> & -> & Hk); [|done|].
  { intros lin. destruct (getSessionsURLHits_upto_spec SESSION_WINDOW_MAX lin) as (l & Hl & _).
    by eexists. }
  cbn [bind]. apply (rdd_reduce_perm hist_add hist_add_comm hist_add_assoc).
  by apply fmap_Permutation.
Qed.

Lemma lsess_window_stats_perm_witness :
  lsess_window_stats
    [("10.0.0.1"%string, Timeline ["/a"]%string [TsBare 0] [0%Q]);
     ("10.0.0.2"%string, Timeline ["/b"; "/c"]%string [TsBare 0; TsList [300000000]] [0; 5]%Q)]
  = lsess_window_stats
    [("10.0.0.2"%string, Timeline ["/b"; "/c"]%string [TsBare 0; TsList [300000000]] [0; 5]%Q);
     ("10.0.0.1"%string, Timeline ["/a"]%string [TsBare 0] [0%Q])].
Proof.
  apply lsess_window_stats_perm. constructor.
Defined.

(** ** The session window of the run *)

Lemma session_hits_length (period : Z) (tl : timeline) :
  (1 ≤ length (session_hits period tl))%nat.
Proof.
  unfold session_hits. destruct (fold_left _ _ _) as [hits urls].
  rewrite length_app. simpl. lia.
Qed.

Lemma getSessionsURLHits_live (lin : string * timeline) :
  timeline_wf lin.2 →
  ∃ l, getSessionsURLHits lin = Ok (lin.1, l) ∧ length l = 39%nat ∧ Forall tally_live l.
Proof.
  intros Hwf. destruct (getSessionsURLHits_tallies lin Hwf) as (l & Hl & HF & _).
  exists l. split; [done|]. split.
  - by rewrite <- (Forall2_length _ _ _ HF), py_range_length.
  - apply Forall_forall. intros x Hx.
    destruct (proj1 (list_elem_of_lookup _ _) Hx) as [i Hi].
    destruct (Forall2_lookup_r _ _ _ _ _ HF Hi) as (p & _ & ->).
    split; [done|]. cbn [bucket_counts nth].
    pose proof (session_hits_length p lin.2). lia.
Qed.

Lemma tally_add_live (x y : list Z) :
  tally_live x → tally_live y →
  tally_live (map (fun p : Z * Z => py_sum [p.1; p.2]) (zip x y)).
Proof.
  intros [Hx Sx] [Hy Sy]. revert Sx Sy. revert Hx. seven x. revert Hy. seven y.
  unfold tally_live, py_sum. simpl. lia.
Qed.

Lemma hist_add_live (a b : list (list Z)) :
  Forall tally_live a → Forall tally_live b → Forall tally_live (hist_add a b).
Proof.
  intros Ha. revert b. unfold hist_add.
  induction Ha as [|x a Hx _ IH]; intros b Hb; [constructor|].
  destruct Hb as [|y b Hy Hb]; [constructor|]. simpl.
  constructor; [by apply tally_add_live | by apply IH].
Qed.

Lemma lsess_window_stats_live (d5 : list (string * timeline)) :
  d5 ≠ [] → Forall (fun lin => timeline_wf lin.2) d5 →
  ∃ h, lsess_window_stats d5 = Ok h ∧ length h = 39%nat ∧ Forall tally_live h.
Proof.
  intros Hne Hwf. unfold lsess_window_stats.
  assert (∃ d6, mapM getSessionsURLHits d5 = Ok d6 ∧ length d6 = length d5 ∧
            Forall (fun r => length r.2 = 39%nat ∧ Forall tally_live r.2) d6)
    as (d6 & -> & Hlen & Hok).
  { clear Hne. induction Hwf as [|lin d5 Hlin _ (d6 & Hd6 & Hlen & Hok)]; simpl.
    - by exists [].
    - destruct (getSessionsURLHits_live lin Hlin) as (l & -> & Hl & Hlive). cbn [bind].
      rewrite Hd6. cbn [bind]. eexists. split; [done|]. split; [simpl; lia|].
      by constructor. }
  cbn [bind]. destruct d6 as [|r d6]; [by destruct d5|]. simpl.
  inversion Hok as [|? ? [Hr Hrl] Hd6]; subst. clear Hok Hlen.
  eexists. split; [done|]. revert Hr Hrl. generalize r.2. clear r.
  induction Hd6 as [|r d6 [Hr Hrl] _ IH]; intros x Hx Hxl; simpl; [done|].
  apply IH.
  - rewrite hist_add_length. lia.
  - by apply hist_add_live.
Qed.

Lemma uptick_indices_bound (s : list Q) :
  Forall (fun k => k + 1 < length s)%nat (uptick_indices s).
Proof.
  apply Forall_forall. intros k Hk. by apply elem_of_uptick_indices in Hk as [? _].
Qed.

Lemma main_session_window_ok (session_period : Z) (d5 : list (string * timeline)) :
  d5 ≠ [] → Forall (fun lin => timeline_wf lin.2) d5 →
  ∃ W, main_session_window session_period true d5 = Ok W ∧
       (W = session_period ∨ 1 ≤ W ≤ SESSION_WINDOW_MAX - 2).
Proof.
  intros Hne Hwf.
  destruct (lsess_window_stats_live d5 Hne Hwf) as (h & Hh & Hlen & Hlive).
  unfold main_session_window. rewrite Hh. cbn [bind].
  rewrite getSessionWindowStats_ok.
  2: { eapply Forall_impl; [exact Hlive|]. by intros x [? _]. }
  2: { eapply Forall_impl; [exact Hlive|]. intros x [_ ?]. lia. }
  cbn [bind].
  rewrite (getOptimalSessionWindow_spec _ (percentages 0 h)) by by simplify_map_eq.
  cbn [bind]. unfold first_upticks.
  pose proof (uptick_indices_bound (percentages 0 h)) as Hbound.
  assert (length (percentages 0 h) = 39%nat) as Hs.
  { unfold percentages. by rewrite length_map. }
  destruct (uptick_indices (percentages 0 h)) as [|k ks]; simpl.
  - exists session_period. by split; [|left].
  - exists (Z.of_nat k + 1). split; [done|]. right.
    inversion Hbound; subst. unfold SESSION_WINDOW_MAX. lia.
Qed.

(** X13. With the heuristic on, the session window of the run is computed
    without an exception for every non-empty list of client timelines: no
    window's total is zero, so no division raises. The window is either the
    [session_period] given or a number between 1 and 38. For an empty list
    the reduction raises [ValueError]; with the heuristic off the window is
    the [session_period] given. *)
Theorem main_session_window_result (session_period : Z) (d5 : list (string * timeline)) :
  (d5 ≠ [] → Forall (fun lin => timeline_wf lin.2) d5 →
   ∃ W, main_session_window session_period true d5 = Ok W ∧
        (W = session_period ∨ 1 ≤ W ≤ SESSION_WINDOW_MAX - 2)) ∧
  main_session_window session_period true [] = Raise ValueError ∧
  main_session_window session_period false d5 = Ok session_period.
Proof. split; [apply main_session_window_ok | done]. Qed.

Lemma main_session_window_result_witness :
  ∃ W, main_session_window 15 true
         [("10.0.0.1"%string, Timeline ["/a"]%string [TsBare 0] [0%Q])] = Ok W.
Proof.
  destruct (proj1 (main_session_window_result 15
              [("10.0.0.1"%string, Timeline ["/a"]%string [TsBare 0] [0%Q])]))
    as (W & HW & _).
  - done.
  - repeat constructor.
  - exists W. exact HW.
Defined.

Lemma values_of_elem {V} (kv : string * V) (l : list (string * V)) :
  kv ∈ l → values_of kv.1 l ≠ [].
Proof.
  intros Hin. unfold values_of.
  assert (kv ∈ filter (fun kv' : string * V => kv'.1 = kv.1) l) as Hf.
  { by apply list_elem_of_filter. }
  destruct (filter _ l); [by apply elem_of_nil in Hf | done].
Qed.

Lemma getSessions_last (W : Z) (cid : string) (tl : timeline) :
  ∃ s, (cid, s) ∈ getSessions W (cid, tl).
Proof.
  rewrite getSessions_eq. unfold sess_close. eexists.
  apply elem_of_app. right. by left.
Qed.

Lemma d7_sessionized_client (W : Z) (d5 : list (string * timeline)) (cid : string) :
  cid ∈ map fst d5 → values_of cid (d7_sessionized W d5) ≠ [].
Proof.
  intros ([cid' tl] & -> & Hin)%list_elem_of_fmap.
  destruct (getSessions_last W cid' tl) as [s Hs].
  apply (values_of_elem (cid', s)). unfold d7_sessionized.
  apply list_elem_of_In, in_flat_map. exists (cid', tl).
  split; by apply list_elem_of_In.
Qed.

Lemma values_of_Forall {V} (P : V → Prop) (k : string) (l : list (string * V)) :
  Forall (fun kv => P kv.2) l → Forall P (values_of k l).
Proof.
  intros Hl. unfold values_of. apply Forall_fmap.
  apply Forall_forall. intros kv [_ Hin]%list_elem_of_filter.
  rewrite Forall_forall in Hl. by apply Hl.
Qed.

(** X14. When the [session_period] given is positive, the window of the run
    is positive, and sessionizing the timelines of the clients with it gives
    sessions that all hold at least one event. Every client of the run has
    at least one session among them, under its own key, and every session
    under its key holds at least one event; so there are at least as many
    sessions as clients. *)
Theorem run_sessions_nonempty (session_period : Z) (d5 : list (string * timeline)) :
  0 < session_period → d5 ≠ [] → Forall (fun lin => timeline_wf lin.2) d5 →
  ∃ W, main_session_window session_period true d5 = Ok W ∧ 0 < W ∧
       Forall (fun s => session_nonempty s.2) (d7_sessionized W d5) ∧
       Forall (fun lin => values_of lin.1 (d7_sessionized W d5) ≠ [] ∧
                          Forall session_nonempty (values_of lin.1 (d7_sessionized W d5)))
              d5 ∧
       (length d5 ≤ length (d7_sessionized W d5))%nat.
Proof.
  intros Hp Hne Hwf.
  destruct (main_session_window_ok session_period d5 Hne Hwf) as (W & HW & Hrange).
  exists W. split; [done|].
  assert (0 < W) as HWpos by (unfold SESSION_WINDOW_MAX in Hrange; lia).
  split; [done|].
  assert (Forall (fun s => session_nonempty s.2) (d7_sessionized W d5) ∧
          (length d5 ≤ length (d7_sessionized W d5))%nat) as [Hall Hlen].
  { unfold d7_sessionized. clear HW Hne Hrange.
    induction Hwf as [|[cid tl] d5 Htl _ [IH1 IH2]]; simpl; [by split|].
    destruct (getSessions_pos_window W cid tl HWpos Htl) as [Hall Hlen]. split.
    - apply Forall_app. split; [|done].
      eapply Forall_impl; [exact Hall|]. by intros s (_ & _ & ?).
    - rewrite length_app. lia. }
  split_and!; [done| |done].
  apply Forall_forall. intros lin Hin. split.
  - apply d7_sessionized_client. by apply list_elem_of_fmap_2.
  - by apply values_of_Forall.
Qed.

Lemma run_sessions_nonempty_witness :
  ∃ W, main_session_window 15 true
         [("10.0.0.1"%string, Timeline ["/a"]%string [TsBare 0] [0%Q])] = Ok W ∧ 0 < W ∧
       values_of "10.0.0.1"%string
         (d7_sessionized W [("10.0.0.1"%string, Timeline ["/a"]%string [TsBare 0] [0%Q])])
       ≠ [].
Proof.
  destruct (run_sessions_nonempty 15
              [("10.0.0.1"%string, Timeline ["/a"]%string [TsBare 0] [0%Q])])
    as (W & HW & Hpos & _ & Hcl & _).
  - lia.
  - done.
  - repeat constructor.
  - exists W. split; [exact HW|]. split; [exact Hpos|].
    inversion Hcl as [|? ? [Hne _] _]. exact Hne.
Defined.

(** ** The indices getOptimalSessionWindow returns *)

Lemma filter_seq_head (P : nat → bool) (a n k : nat) (rest : list nat) :
  List.filter P (seq a n) = k :: rest →
  (a ≤ k)%nat ∧ ∀ j, (a ≤ j < k)%nat → P j = false.
Proof.
  revert a. induction n as [|n IH]; intros a; simpl; [done|].
  destruct (P a) eqn:Ha.
  - intros Hf. injection Hf as Hak _. split; [lia|]. intros j Hj. exfalso. lia.
  - intros Hf. destruct (IH _ Hf) as [Hk Hlow]. split; [lia|].
    intros j Hj. destruct (decide (j = a)) as [->|]; [done|]. apply Hlow. lia.
Qed.

(** X16. Without the key 0 [getOptimalSessionWindow] raises [KeyError].
    With it, it returns at most two indices. Each of them is an index [k] of
    the series with a successor [k + 1] in the series at which the series
    goes up, [s[k] < s[k + 1]]. The first index returned is the smallest at
    which the series goes up, and when the series goes up somewhere the list
    returned is not empty; a series of at most one entry gives the empty
    list. *)
Theorem getOptimalSessionWindow_result (d : gmap Z (list Q)) :
  (d !! 0 = None → getOptimalSessionWindow d = Raise KeyError) ∧
  (∀ s, d !! 0 = Some s →
     ∃ lind, getOptimalSessionWindow d = Ok lind ∧
       (length lind ≤ 2)%nat ∧
       Forall (fun k => 0 ≤ k ∧ k + 1 < Z.of_nat (length s)) lind ∧
       Forall (fun k => ∃ n, k = Z.of_nat n ∧ (n + 1 < length s)%nat ∧
                             (nth n s 0 < nth (n + 1) s 0)%Q) lind ∧
       (∀ k0 j, head lind = Some k0 → Z.of_nat j < k0 → uptick s j = false) ∧
       (∀ n, (n + 1 < length s)%nat → (nth n s 0 < nth (n + 1) s 0)%Q → lind ≠ []) ∧
       ((length s ≤ 1)%nat → lind = [])).
Proof.
  split.
  - intros Hd. unfold getOptimalSessionWindow, dict_getitem. by rewrite Hd.
  - intros s Hd. exists (first_upticks 2 s).
    split; [by apply getOptimalSessionWindow_spec|]. unfold first_upticks.
    split_and!.
    + rewrite length_map, length_take. lia.
    + apply Forall_fmap, Forall_take. eapply Forall_impl; [apply uptick_indices_bound|].
      intros k Hk. unfold compose. cbv beta in Hk. lia.
    + apply Forall_fmap, Forall_take, Forall_forall.
      intros n [Hn Hup]%elem_of_uptick_indices. unfold compose. by exists n.
    + intros k0 j Hhd Hj. unfold uptick_indices in Hhd.
      destruct (List.filter (uptick s) (seq 0 (length s - 1))) as [|k rest] eqn:Hf; [done|].
      simpl in Hhd. injection Hhd as <-.
      destruct (filter_seq_head _ _ _ _ _ Hf) as [_ Hlow]. apply Hlow. lia.
    + intros n Hn Hup.
      assert (n ∈ uptick_indices s) as Hin by by apply elem_of_uptick_indices.
      destruct (uptick_indices s) as [|k ks]; [by apply elem_of_nil in Hin | done].
    + intros Hs. unfold uptick_indices.
      replace (length s - 1)%nat with 0%nat by lia. done.
Qed.

Lemma getOptimalSessionWindow_result_witness :
  ∃ lind, getOptimalSessionWindow {[ 0 := [60; 55; 50; 52; 48]%Q ]} = Ok lind ∧
          (length lind ≤ 2)%nat ∧
          Forall (fun k => ∃ n, k = Z.of_nat n ∧ (n + 1 < 5)%nat ∧
                                Qlt (nth n [60; 55; 50; 52; 48]%Q 0%Q)
                                    (nth (n + 1) [60; 55; 50; 52; 48]%Q 0%Q)) lind.
Proof.
  destruct (proj2 (getOptimalSessionWindow_result {[ 0 := [60; 55; 50; 52; 48]%Q ]})
              [60; 55; 50; 52; 48]%Q) as (lind & Hl & Hlen & _ & Hup & _).
  - apply lookup_singleton_eq.
  - exists lind. split; [exact Hl|]. split; [exact Hlen | exact Hup].
Defined.

(** ** Sums of durations *)

Lemma fold_left_Qplus_acc (l : list Q) (acc : Q) :
  (fold_left Qplus l acc == acc + py_sum_float l)%Q.
Proof.
  unfold py_sum_float. revert acc. induction l as [|a l IH]; intros acc; simpl.
  - ring.
  - rewrite (IH (acc + a)%Q), (IH (0 + a)%Q). ring.
Qed.

Lemma py_sum_float_cons (a : Q) (l : list Q) :
  (py_sum_float (a :: l) == a + py_sum_float l)%Q.
Proof.
  unfold py_sum_float at 1. simpl. rewrite fold_left_Qplus_acc. ring.
Qed.

(** ** getSessionTime and the accumulators *)

Lemma rdd_map_acc_getSessionTime (ss : list (string * session)) (acc : accumulators) :
  (rdd_map_acc getSessionTime acc ss).2
  = map (fun s => (s.1, py_sum_float (sess_durs s.2))) ss ∧
  TOTAL_SESSIONS_ACC (rdd_map_acc getSessionTime acc ss).1
  = TOTAL_SESSIONS_ACC acc + Z.of_nat (length ss) ∧
  (SUM_SESSION_TIME_ACC (rdd_map_acc getSessionTime acc ss).1
   == SUM_SESSION_TIME_ACC acc
      + py_sum_float (map (fun s => py_sum_float (sess_durs s.2)) ss))%Q.
Proof.
  revert acc. induction ss as [|s ss IH]; intros acc.
  - simpl. split; [done|]. split; [lia|]. unfold py_sum_float. simpl. ring.
  - cbn [rdd_map_acc]. unfold getSessionTime at 1 3 5.
    destruct (IH {| SUM_SESSION_TIME_ACC :=
                      (SUM_SESSION_TIME_ACC acc + py_sum_float (sess_durs s.2))%Q;
                    TOTAL_SESSIONS_ACC := TOTAL_SESSIONS_ACC acc + 1 |})
      as (Hrs & Htot & Hsum).
    destruct (rdd_map_acc getSessionTime _ ss) as [acc'' bs]. cbn [fst snd] in *.
    split; [by rewrite Hrs|]. split; [rewrite Htot; simpl; lia|].
    rewrite Hsum. cbn [map SUM_SESSION_TIME_ACC]. rewrite py_sum_float_cons. ring.
Qed.

(** X18. One evaluation of [map(getSessionTime)] over the sessions returns
    for each session the client and the sum of the gaps it records, adds the
    number of sessions to [TOTAL_SESSIONS_ACC] and the sum of the durations
    to [SUM_SESSION_TIME_ACC]. From accumulators at 0, the average session
    time is then computed when there is a session, and its division raises
    [ZeroDivisionError] when there is none. *)
Theorem getSessionTime_accumulators (ss : list (string * session)) :
  (rdd_map_acc getSessionTime (Accumulators 0 0) ss).2
  = map (fun s => (s.1, py_sum_float (sess_durs s.2))) ss ∧
  TOTAL_SESSIONS_ACC (rdd_map_acc getSessionTime (Accumulators 0 0) ss).1
  = Z.of_nat (length ss) ∧
  (SUM_SESSION_TIME_ACC (rdd_map_acc getSessionTime (Accumulators 0 0) ss).1
   == py_sum_float (map (fun s => py_sum_float (sess_durs s.2)) ss))%Q ∧
  (ss = [] →
   avg_session_time (rdd_map_acc getSessionTime (Accumulators 0 0) ss).1
   = Raise ZeroDivisionError) ∧
  (ss ≠ [] →
   avg_session_time (rdd_map_acc getSessionTime (Accumulators 0 0) ss).1
   = Ok (SUM_SESSION_TIME_ACC (rdd_map_acc getSessionTime (Accumulators 0 0) ss).1
         / (0 + inject_Z (Z.of_nat (length ss))))%Q).
Proof.
  destruct (rdd_map_acc_getSessionTime ss (Accumulators 0 0)) as (Hrs & Htot & Hsum).
  cbn [TOTAL_SESSIONS_ACC SUM_SESSION_TIME_ACC] in Htot, Hsum.
  split; [done|]. split; [lia|]. split; [rewrite Hsum; ring|]. split.
  - by intros ->.
  - intros Hne. unfold avg_session_time. rewrite Htot. apply py_div_nonzero.
    rewrite Qplus_0_l, inject_Z_eq_0. destruct ss; [done|]. simpl. lia.
Qed.

Lemma getSessionTime_accumulators_witness :
  avg_session_time
    (rdd_map_acc getSessionTime (Accumulators 0 0)
       [("10.0.0.1"%string, Session [0; 5]%Q ["/a"; "/b"]%string
                              [TsBare 0; TsList [300000000]])]).1
  = Ok (Qdiv
          (SUM_SESSION_TIME_ACC
             (rdd_map_acc getSessionTime (Accumulators 0 0)
                [("10.0.0.1"%string, Session [0; 5]%Q ["/a"; "/b"]%string
                                       [TsBare 0; TsList [300000000]])]).1)
          (0 + inject_Z 1)%Q).
Proof.
  apply (getSessionTime_accumulators
           [("10.0.0.1"%string, Session [0; 5]%Q ["/a"; "/b"]%string
                                  [TsBare 0; TsList [300000000]])]).
  done.
Defined.

(** ** Sorting a client's line *)

Lemma sorted_insert_perm (v : visit) (l : list visit) : sorted_insert v l ≡ₚ v :: l.
Proof.
  induction l as [|w l IH]; simpl; [done|].
  destruct (v.1 <=? w.1); [done|]. rewrite IH. apply perm_swap.
Qed.

Lemma py_sorted_perm (dat : list visit) : py_sorted dat ≡ₚ dat.
Proof.
  induction dat as [|v dat IH]; simpl; [done|].
  by rewrite sorted_insert_perm, IH.
Qed.

Lemma sorted_insert_sorted (v : visit) (l : list visit) :
  Sorted Z.le (map fst l) → Sorted Z.le (map fst (sorted_insert v l)).
Proof.
  induction l as [|w l IH]; intros Hl; simpl.
  - repeat constructor.
  - destruct (v.1 <=? w.1) eqn:Hle; simpl.
    + constructor; [done|]. constructor. lia.
    + simpl in Hl. inversion Hl as [|? ? Hl' Hhd]; subst.
      constructor; [by apply IH|].
      destruct l as [|u l]; simpl.
      * constructor. lia.
      * destruct (v.1 <=? u.1); simpl; constructor; [lia|].
        by inversion Hhd.
Qed.

Lemma py_sorted_sorted (dat : list visit) : Sorted Z.le (map fst (py_sorted dat)).
Proof.
  induction dat as [|v dat IH]; simpl; [constructor|]. by apply sorted_insert_sorted.
Qed.

Lemma sorted_insert_stable (t : Z) (v : visit) (l : list visit) :
  filter (fun w : visit => w.1 = t) (sorted_insert v l)
  = filter (fun w : visit => w.1 = t) (v :: l).
Proof.
  induction l as [|w l IH]; simpl; [done|].
  destruct (v.1 <=? w.1) eqn:Hle; [done|].
  rewrite (filter_cons _ w), IH, !(filter_cons _ v), !(filter_cons _ w).
  repeat case_decide; try done. lia.
Qed.

Lemma py_sorted_stable (t : Z) (dat : list visit) :
  filter (fun w : visit => w.1 = t) (py_sorted dat)
  = filter (fun w : visit => w.1 = t) dat.
Proof.
  induction dat as [|v dat IH]; simpl; [done|].
  by rewrite sorted_insert_stable, !filter_cons, IH.
Qed.

(** X20. Whatever the order of the visits of a client in the log, the
    timeline built from the sorted line has no negative gap; it holds the
    resources and the timestamps of exactly the visits of the line, and the
    visits of one timestamp are in the order the line has them. An empty
    line raises [IndexError]. *)
Theorem sorted_line_timeline (cid : string) (dat : list visit) :
  (dat = [] → getPageDurations (cid, py_sorted dat) = Raise IndexError) ∧
  (dat ≠ [] →
   ∃ tl, getPageDurations (cid, py_sorted dat) = Ok (cid, tl) ∧ timeline_wf tl ∧
         Forall (fun d => (0 <= d)%Q) (ldurs tl) ∧
         lurls tl = map snd (py_sorted dat) ∧
         flat_map cell_stamps (lts tl) = map fst (py_sorted dat)) ∧
  py_sorted dat ≡ₚ dat ∧
  Sorted Z.le (map fst (py_sorted dat)) ∧
  (∀ t, filter (fun w : visit => w.1 = t) (py_sorted dat)
        = filter (fun w : visit => w.1 = t) dat).
Proof.
  split; [by intros ->|]. split; [|split; [apply py_sorted_perm|split;
    [apply py_sorted_sorted | intros t; apply py_sorted_stable]]].
  intros Hne.
  destruct (py_sorted dat) as [|e rest] eqn:Hs.
  { destruct dat; [done|]. pose proof (py_sorted_perm (v :: dat)) as Hp.
    rewrite Hs in Hp. by apply Permutation_nil_cons in Hp. }
  eexists. split; [apply getPageDurations_cons|].
  pose proof (getPageDurations_cons cid e rest) as Heq.
  destruct (getPageDurations_wf _ _ _ Heq) as [_ Hwf].
  destruct (getPageDurations_events _ _ _ Heq) as [Hu Ht].
  split; [exact Hwf|]. split; [|by split]. cbn [ldurs].
  constructor; [done|]. apply (gaps_nonneg (e :: rest)). rewrite <- Hs.
  apply py_sorted_sorted.
Qed.

Lemma sorted_line_timeline_witness :
  ∃ tl, getPageDurations ("10.0.0.1"%string,
          py_sorted [(60000000, "/b"%string); (0, "/a"%string)])
        = Ok ("10.0.0.1"%string, tl) ∧ Forall (fun d => (0 <= d)%Q) (ldurs tl).
Proof.
  destruct (proj1 (proj2 (sorted_line_timeline "10.0.0.1"%string
              [(60000000, "/b"%string); (0, "/a"%string)])))
    as (tl & Htl & _ & Hpos & _).
  - done.
  - exists tl. split; [exact Htl | exact Hpos].
Defined.

(** ** reduceByKey and the engagement records *)

Lemma reduceByKey_snoc {V} (f : V → V → V) (l : list (string * V)) (kv : string * V) :
  reduceByKey f (l ++ [kv]) =
  <[kv.1 := match reduceByKey f l !! kv.1 with
            | Some v => f v kv.2
            | None => kv.2
            end]> (reduceByKey f l).
Proof. unfold reduceByKey. by rewrite fold_left_app. Qed.

Lemma values_of_snoc {V} (k : string) (l : list (string * V)) (kv : string * V) :
  values_of k (l ++ [kv]) = values_of k l ++ (if decide (kv.1 = k) then [kv.2] else []).
Proof.
  unfold values_of. rewrite filter_app, map_app. f_equal.
  rewrite filter_cons, filter_nil. by case_decide.
Qed.

(** The value of a key is the reduction of the values the key has. *)
Lemma reduceByKey_lookup {V} (f : V → V → V) (l : list (string * V)) (k : string) :
  reduceByKey f l !! k =
  match values_of k l with
  | [] => None
  | v :: vs => Some (fold_left f vs v)
  end.
Proof.
  induction l as [|kv l IH] using rev_ind; [done|].
  rewrite reduceByKey_snoc, values_of_snoc. case_decide as Hk.
  - subst k. rewrite lookup_insert_eq, IH.
    destruct (values_of kv.1 l) as [|v vs]; simpl; [done|].
    by rewrite fold_left_app.
  - rewrite lookup_insert_ne by done. by rewrite app_nil_r.
Qed.

Lemma values_of_map {V1 V2} (g : V1 → V2) (k : string) (l : list (string * V1)) :
  values_of k (map (fun kv => (kv.1, g kv.2)) l) = map g (values_of k l).
Proof.
  unfold values_of. induction l as [|kv l IH]; [done|].
  cbn [map]. rewrite !filter_cons. cbn [fst].
  case_decide; simpl; by rewrite IH.
Qed.

Lemma values_of_map_pair {V1 V2} (g : string * V1 → V2) (k : string)
    (l : list (string * V1)) :
  values_of k (map (fun kv => (kv.1, g kv)) l)
  = map g (filter (fun kv : string * V1 => kv.1 = k) l).
Proof.
  unfold values_of. induction l as [|kv l IH]; [done|].
  cbn [map]. rewrite !filter_cons. cbn [fst].
  case_decide; simpl; by rewrite IH.
Qed.

Lemma fold_left_Zadd_acc (l : list Z) (acc : Z) :
  fold_left Z.add l acc = acc + py_sum l.
Proof.
  unfold py_sum. revert acc. induction l as [|y l IH]; intros acc; simpl; [lia|].
  rewrite (IH (acc + y)), (IH (0 + y)). lia.
Qed.

Lemma py_sum_cons (x : Z) (l : list Z) : py_sum (x :: l) = x + py_sum l.
Proof. unfold py_sum at 1. simpl. rewrite fold_left_Zadd_acc. lia. Qed.

Lemma fold_page_sessions (hs : list nat) (a : Z) (c : Q) :
  (fold_left page_sessions_add (map (fun h : nat => (Z.of_nat h, 1%Q)) hs) (a, c)).1
  = a + py_sum (map Z.of_nat hs) ∧
  ((fold_left page_sessions_add (map (fun h : nat => (Z.of_nat h, 1%Q)) hs) (a, c)).2
   == c + inject_Z (Z.of_nat (length hs)))%Q.
Proof.
  revert a c. induction hs as [|h hs IH]; intros a c.
  - simpl. split; [unfold py_sum; simpl; lia|]. unfold inject_Z. ring.
  - cbn [map fold_left length]. unfold page_sessions_add at 2 4. cbn [fst snd].
    destruct (IH (a + Z.of_nat h) (c + 1)%Q) as [H1 H2].
    split.
    + rewrite H1, py_sum_cons. lia.
    + rewrite H2, Nat2Z.inj_succ. unfold Z.succ. rewrite inject_Z_plus.
      change (inject_Z 1) with 1%Q. ring.
Qed.

Lemma d12_lookup (d7 : list (string * session)) (cid : string) :
  d12_total_page_sessions (d8b_page_hits d7) !! cid =
  match map (fun s => py_len_set (sess_urls s)) (values_of cid d7) with
  | [] => None
  | h :: hs =>
      Some (fold_left page_sessions_add (map (fun h : nat => (Z.of_nat h, 1%Q)) hs)
              (Z.of_nat h, 1%Q))
  end.
Proof.
  unfold d12_total_page_sessions, d8b_page_hits. rewrite reduceByKey_lookup.
  rewrite (values_of_map (fun h : nat => (Z.of_nat h, 1%Q))).
  rewrite (values_of_map (fun s => py_len_set (sess_urls s))).
  by destruct (map _ (values_of cid d7)).
Qed.

Lemma d10_lookup (d7 : list (string * session)) (cid : string) :
  d10_sorted_total_cust_session
    (rdd_map_acc getSessionTime (Accumulators 0 0) d7).2 !! cid =
  match map (fun s => py_sum_float (sess_durs s)) (values_of cid d7) with
  | [] => None
  | d :: ds => Some (fold_left Qplus ds d)
  end.
Proof.
  unfold d10_sorted_total_cust_session.
  destruct (rdd_map_acc_getSessionTime d7 (Accumulators 0 0)) as (-> & _).
  rewrite reduceByKey_lookup.
  by rewrite (values_of_map (fun s => py_sum_float (sess_durs s))).
Qed.

Lemma d13_engagement_lookup (d7 : list (string * session)) (cid : string) :
  (values_of cid d7 = [] → d13_engagement d7 !! cid = None) ∧
  (values_of cid d7 ≠ [] →
   ∃ hits count dur,
     d13_engagement d7 !! cid = Some ((hits, count), dur) ∧
     hits = py_sum (map (fun s => Z.of_nat (py_len_set (sess_urls s))) (values_of cid d7)) ∧
     Qeq count (inject_Z (Z.of_nat (length (values_of cid d7)))) ∧
     Qeq dur (py_sum_float (map (fun s => py_sum_float (sess_durs s)) (values_of cid d7))) ∧
     total_engagement (cid, ((hits, count), dur)) =
     Ok (cid, [inject_Z hits; dur; Qdiv (inject_Z hits) count; Qdiv dur count; count])).
Proof.
  unfold d13_engagement, rdd_join.
  rewrite map_lookup_zip_with, d12_lookup, d10_lookup.
  destruct (values_of cid d7) as [|s ss]; [by split|]. split; [done|]. intros _.
  cbn [map mbind option_bind].
  destruct (fold_page_sessions (map (fun s => py_len_set (sess_urls s)) ss)
              (Z.of_nat (py_len_set (sess_urls s))) 1%Q) as [Hhits Hcount].
  set (p := fold_left page_sessions_add _ _) in *.
  exists p.1, p.2, (fold_left Qplus (map (fun s => py_sum_float (sess_durs s)) ss)
                      (py_sum_float (sess_durs s))).
  split; [by destruct p|].
  assert (Qeq p.2 (inject_Z (Z.of_nat (length (s :: ss))))) as Hc.
  { rewrite Hcount, length_map. cbn [length]. rewrite Nat2Z.inj_succ. unfold Z.succ.
    rewrite inject_Z_plus. change (inject_Z 1) with 1%Q. ring. }
  split_and!.
  - rewrite Hhits, py_sum_cons, map_map. done.
  - exact Hc.
  - rewrite fold_left_Qplus_acc, py_sum_float_cons. reflexivity.
  - unfold total_engagement. cbn [fst snd].
    rewrite !py_div_nonzero; [done|..];
      rewrite Hc, inject_Z_eq_0; simpl; lia.
Qed.

(** X21. The engagement record of a client. A client without a session has
    no record. For a client with sessions, the joined value holds the sum of
    the unique-resource counts of its sessions, the number of its sessions
    and the sum of their durations, and [total_engagement] returns the record
    with the two averages: the number of sessions is at least 1, so its
    divisions do not raise. *)
Theorem engagement_record (d7 : list (string * session)) (cid : string) :
  (values_of cid d7 = [] → d13_engagement d7 !! cid = None) ∧
  (values_of cid d7 ≠ [] →
   ∃ hits count dur,
     d13_engagement d7 !! cid = Some ((hits, count), dur) ∧
     hits = py_sum (map (fun s => Z.of_nat (py_len_set (sess_urls s))) (values_of cid d7)) ∧
     Qeq count (inject_Z (Z.of_nat (length (values_of cid d7)))) ∧
     Qeq dur (py_sum_float (map (fun s => py_sum_float (sess_durs s)) (values_of cid d7))) ∧
     total_engagement (cid, ((hits, count), dur)) =
     Ok (cid, [inject_Z hits; dur; Qdiv (inject_Z hits) count; Qdiv dur count; count])).
Proof. apply d13_engagement_lookup. Qed.

Lemma engagement_record_witness :
  ∃ hits count dur,
    d13_engagement
      [("10.0.0.1"%string, Session [0; 5]%Q ["/a"; "/b"]%string
                             [TsBare 0; TsList [300000000]]);
       ("10.0.0.1"%string, Session [0%Q] ["/c"]%string [TsList [1500000000]])]
      !! "10.0.0.1"%string = Some ((hits, count), dur) ∧
    Qeq count (inject_Z 2).
Proof.
  destruct (proj2 (engagement_record
              [("10.0.0.1"%string, Session [0; 5]%Q ["/a"; "/b"]%string
                                     [TsBare 0; TsList [300000000]]);
               ("10.0.0.1"%string, Session [0%Q] ["/c"]%string [TsList [1500000000]])]
              "10.0.0.1"%string))
    as (hits & count & dur & Hd & _ & Hc & _).
  - done.
  - exists hits, count, dur. split; [exact Hd | exact Hc].
Defined.

(** ** The run as a whole *)

Lemma d5_cust_duration_ok (d3 : list (string * list visit)) :
  Forall (fun lin => lin.2 ≠ []) d3 →
  ∃ d5, d5_cust_duration d3 = Ok d5 ∧ map fst d5 = map fst d3 ∧
        Forall (fun lin => timeline_wf lin.2 ∧ Forall (fun d => (0 <= d)%Q) (ldurs lin.2)) d5.
Proof.
  unfold d5_cust_duration.
  induction 1 as [|[cid dat] d3 Hdat _ (d5 & Hd5 & Hcids & Hok)]; simpl.
  - by exists [].
  - destruct (py_sorted dat) as [|e rest] eqn:Hs.
    { destruct dat; [done|]. pose proof (py_sorted_perm (v :: dat)) as Hp.
      rewrite Hs in Hp. by apply Permutation_nil_cons in Hp. }
    rewrite getPageDurations_cons. cbn [bind]. rewrite Hd5. cbn [bind].
    eexists. split; [done|]. split; [simpl; by rewrite Hcids|].
    constructor; [|done]. cbn [snd]. split.
    + by apply (getPageDurations_wf cid (e :: rest) _ (getPageDurations_cons _ _ _)).
    + cbn [ldurs]. constructor; [done|]. apply (gaps_nonneg (e :: rest)).
      rewrite <- Hs. apply py_sorted_sorted.
Qed.

(** X22. Whatever the window, every client of the run has an engagement
    record after its timeline is sessionized, and computing the record does
    not raise. *)
Theorem engagement_every_client (W : Z) (d5 : list (string * timeline)) (cid : string) :
  cid ∈ map fst d5 →
  ∃ dat record,
    d13_engagement (d7_sessionized W d5) !! cid = Some dat ∧
    total_engagement (cid, dat) = Ok record.
Proof.
  intros Hcid.
  destruct (proj2 (d13_engagement_lookup (d7_sessionized W d5) cid))
    as (hits & count & dur & Hd & _ & _ & _ & Hrec).
  - by apply d7_sessionized_client.
  - by eexists _, _.
Qed.

Lemma engagement_every_client_witness :
  ∃ dat record,
    d13_engagement
      (d7_sessionized 0 [("10.0.0.1"%string, Timeline ["/a"]%string [TsBare 0] [0%Q])])
      !! "10.0.0.1"%string = Some dat ∧
    total_engagement ("10.0.0.1"%string, dat) = Ok record.
Proof.
  apply (engagement_every_client 0
           [("10.0.0.1"%string, Timeline ["/a"]%string [TsBare 0] [0%Q])]).
  by left.
Defined.

(** X23. A run over a non-empty list of non-empty client lines raises
    nowhere, whatever the [session_period] given: the lines are sorted and
    turned into timelines, the session window is computed, the average
    session time is computed, and every client gets its engagement
    record. *)
Theorem run_never_raises (session_period : Z) (d3 : list (string * list visit)) :
  d3 ≠ [] → Forall (fun lin => lin.2 ≠ []) d3 →
  ∃ d5 W avg,
    d5_cust_duration d3 = Ok d5 ∧ map fst d5 = map fst d3 ∧
    main_session_window session_period true d5 = Ok W ∧
    avg_session_time
      (rdd_map_acc getSessionTime (Accumulators 0 0) (d7_sessionized W d5)).1 = Ok avg ∧
    ∀ cid, cid ∈ map fst d3 →
      ∃ dat record,
        d13_engagement (d7_sessionized W d5) !! cid = Some dat ∧
        total_engagement (cid, dat) = Ok record.
Proof.
  intros Hne Hlines. destruct (d5_cust_duration_ok d3 Hlines) as (d5 & Hd5 & Hcids & Hok).
  assert (d5 ≠ []) as Hne5.
  { intros ->. destruct d3; [done|]. discriminate Hcids. }
  destruct (main_session_window_ok session_period d5 Hne5) as (W & HW & _).
  { eapply Forall_impl; [exact Hok|]. by intros lin [? _]. }
  destruct (rdd_map_acc_getSessionTime (d7_sessionized W d5) (Accumulators 0 0))
    as (_ & Htot & _).
  exists d5, W. eexists. split; [done|]. split; [done|]. split; [done|]. split.
  - unfold avg_session_time. apply py_div_nonzero. rewrite Htot.
    cbn [TOTAL_SESSIONS_ACC]. rewrite Qplus_0_l, inject_Z_eq_0.
    destruct d5 as [|[cid tl] d5]; [done|].
    assert (values_of cid (d7_sessionized W ((cid, tl) :: d5)) ≠ []) as Hv.
    { apply d7_sessionized_client. by left. }
    destruct (d7_sessionized W ((cid, tl) :: d5)); [done|]. simpl. lia.
  - intros cid Hcid. rewrite <- Hcids in Hcid.
    destruct (proj2 (d13_engagement_lookup (d7_sessionized W d5) cid))
      as (hits & count & dur & Hd & _ & _ & _ & Hrec).
    + by apply d7_sessionized_client.
    + by eexists _, _.
Qed.

Lemma run_never_raises_witness :
  ∃ d5 W avg,
    d5_cust_duration [("10.0.0.1"%string, [(60000000, "/b"%string); (0, "/a"%string)])]
    = Ok d5 ∧
    main_session_window 0 true d5 = Ok W ∧
    avg_session_time
      (rdd_map_acc getSessionTime (Accumulators 0 0) (d7_sessionized W d5)).1 = Ok avg.
Proof.
  destruct (run_never_raises 0
              [("10.0.0.1"%string, [(60000000, "/b"%string); (0, "/a"%string)])])
    as (d5 & W & avg & Hd5 & _ & HW & Havg & _).
  - done.
  - by repeat constructor.
  - exists d5, W, avg. split; [exact Hd5|]. split; [exact HW | exact Havg].
Defined.
